(** * Data-Processing-and-Visualization: the PR/GHI pipeline of [script.py]

    A shallow embedding of [preprocess_data] and [plot_pr_graph] and the
    properties the specification states about them.

    Conventions of the embedding.
    - A Python/NumPy float is idealised as an exact rational ([Qc], canonical
      rationals with Leibniz equality); a missing value ([None] before
      [pd.to_numeric], [NaN] after) is [None] of [option Qc].
    - A calendar date is its proleptic Gregorian ordinal, a [Z] (what
      [datetime.date.toordinal] returns); differences of dates are day counts.
    - The outer [data_dict] is an insertion-ordered association list (Python
      dicts iterate in insertion order), the inner per-date dict is a
      [gmap string].
    - [sort_values] is a merge sort on the dates; the dates of a frame are
      distinct, so every sorting algorithm gives the same frame
      ([sort_values_unique]).
    - [round] and the formats [.1f] and [.1%] round the exact value, ties to
      even, where the program rounds the nearest double; the two differ only
      where the exact value is a tie (23/80 prints 28.8% here).
    - [print], [to_csv], [savefig] and [show] are recorded as a list of
      effects. *)

From Stdlib Require Import ZArith QArith Qcanon Ascii String Lqa.
From stdpp Require Import base tactics option list numbers strings pretty gmap sorting.

Local Open Scope Z_scope.

(** ** Numbers *)

(** The decimal literal [n / d] of the source, as an exact rational. *)
Definition lit (n : Z) (d : positive) : Qc := Q2Qc (n # d).

(** ** Dates *)

Definition date := Z.

Definition is_leap (y : Z) : bool :=
  (y mod 4 =? 0) && (negb (y mod 100 =? 0) || (y mod 400 =? 0)).

Definition days_before_year (y : Z) : Z :=
  let y' := y - 1 in y' * 365 + y' / 4 - y' / 100 + y' / 400.

Definition days_in_month (y m : Z) : Z :=
  if m =? 2 then (if is_leap y then 29 else 28)
  else if (m =? 4) || (m =? 6) || (m =? 9) || (m =? 11) then 30 else 31.

Fixpoint days_before_month_aux (y : Z) (k : nat) : Z :=
  match k with
  | O => 0
  | S k' => days_before_month_aux y k' + days_in_month y (Z.of_nat k)
  end.

Definition days_before_month (y m : Z) : Z :=
  days_before_month_aux y (Z.to_nat (m - 1)).

(** [datetime.date(y, m, d).toordinal()]. *)
Definition ymd (y m d : Z) : date :=
  days_before_year y + days_before_month y m + d.

(** ** Derivation: the budget curve ([get_budget], script.py 61-65) *)

Definition base : Qc := lit 739 10.
Definition start : date := ymd 2019 7 1.
Definition decay : Qc := (1 - lit 8 1000)%Qc.

Definition budget_years (d : date) : Z := Z.max 0 ((d - start) / 365).

Definition get_budget (d : date) : Qc :=
  (base * decay ^ Z.to_nat (budget_years d))%Qc.

(** ** Derivation: the colour of a point ([get_color], script.py 69-74) *)

Inductive color := gray | navy | lightblue | orange | brown.

Definition get_color (ghi : option Qc) : color :=
  match ghi with
  | None => gray
  | Some g =>
      if bool_decide (g < lit 2 1)%Qc then navy
      else if bool_decide (g < lit 4 1)%Qc then lightblue
      else if bool_decide (g < lit 6 1)%Qc then orange
      else brown
  end.

(** ** The reconciled table *)

(** One row of the combined frame: columns [Date], [GHI], [PR]. *)
Record DailyRecord := mkRow {
  Date : date;
  GHI : option Qc;
  PR : option Qc
}.

(** A row after the derivation step: the added columns [PR_MA_30],
    [Budget_PR] and [Color]. *)
Record DerivedPoint := mkPoint {
  record : DailyRecord;
  PR_MA_30 : option Qc;
  Budget_PR : Qc;
  Color : color
}.

(** The five trailing averages and the lifetime average of the summary box. *)
Record averages := mkAverages {
  pr_7 : option Qc;
  pr_30 : option Qc;
  pr_60 : option Qc;
  pr_90 : option Qc;
  pr_365 : option Qc;
  pr_lifetime : option Qc
}.

(** What is handed to matplotlib. *)
Record chart := mkChart {
  points : list DerivedPoint;
  title_from : date;
  title_to : date;
  budget_label : string;
  annotation : string;
  avg_box : averages
}.

(** The lines the script prints, by what they say. *)
Inductive message :=
  | Skipping (file : string)
  | NoDataFound
  | Saved (rows : nat)
  | NoDataToPlot
  | Displayed.

Inductive effect :=
  | Print (m : message)
  | ToCsv (df : list DailyRecord)
  | SaveFig (c : chart)
  | Show.

(** ** Ingestion ([preprocess_data], script.py 8-49) *)

(** [file.endswith(".csv")] *)
Definition endswith_csv (file : string) : bool :=
  let n := String.length file in
  (4 <=? n)%nat && String.eqb (String.substring (n - 4) 4 file) ".csv".

(** [file.replace(".csv", "")]: every occurrence is removed, left to right. *)
Fixpoint replace_csv (file : string) : string :=
  match file with
  | String "."%char (String "c"%char (String "s"%char (String "v"%char rest))) =>
      replace_csv rest
  | String c rest => String c (replace_csv rest)
  | EmptyString => EmptyString
  end.

(** A file met by [os.walk]: its name and what [pd.read_csv] followed by
    [select_dtypes(include=['number']).values] gives, the rows of the
    numeric columns ([None] for the frame when reading raises, [None] for a
    cell that is NaN). *)
Record dir_entry := mkEntry {
  file : string;
  df_csv : option (list (list (option Qc)))
}.

(** [values.flatten()], NaN removed, then [value[0] if len(value) > 0 else None]. *)
Definition first_value (values : list (list (option Qc))) : option Qc :=
  head (omap id (concat values)).

(** [data_dict.setdefault(date, {})[key] = value] *)
Fixpoint setdefault_set (data_dict : list (date * gmap string (option Qc)))
    (d : date) (key : string) (value : option Qc)
    : list (date * gmap string (option Qc)) :=
  match data_dict with
  | [] => [(d, <[key := value]> ∅)]
  | (d', values) :: rest =>
      if decide (d' = d) then (d', <[key := value]> values) :: rest
      else (d', values) :: setdefault_set rest d key value
  end.

(** The order of [sort_values("Date")]. *)
Definition by_Date (r1 r2 : DailyRecord) : Prop := Date r1 ≤ Date r2.

#[global] Instance by_Date_dec : RelDecision by_Date :=
  λ r1 r2, Z.le_dec (Date r1) (Date r2).

Definition sort_values (df : list DailyRecord) : list DailyRecord :=
  merge_sort by_Date df.

Section Ingestor.
(** [datetime.strptime(file_name, "%Y-%m-%d").date()], [None] when it raises. *)
Variable strptime : string → option date.

(** The body of the innermost loop; the state is the dict and what was
    printed so far. *)
Definition process_file (folder : string)
    (st : list (date * gmap string (option Qc)) * list effect) (f : dir_entry)
    : list (date * gmap string (option Qc)) * list effect :=
  if endswith_csv (file f) then
    match strptime (replace_csv (file f)), df_csv f with
    | Some d, Some values =>
        let value := first_value values in
        if String.eqb folder "PR" then (setdefault_set st.1 d "PR" value, st.2)
        else if String.eqb folder "GHI" then (setdefault_set st.1 d "GHI" value, st.2)
        else st
    | _, _ => (st.1, st.2 ++ [Print (Skipping (file f))])
    end
  else st.

Definition scan (walk : string → list dir_entry)
    : list (date * gmap string (option Qc)) * list effect :=
  foldl (λ st folder, foldl (process_file folder) st (walk folder))
        ([], []) ["PR"; "GHI"].

Definition rows_of (data_dict : list (date * gmap string (option Qc)))
    : list DailyRecord :=
  (λ kv, mkRow kv.1 (kv.2 !! "GHI" ≫= id) (kv.2 !! "PR" ≫= id)) <$> data_dict.

(** [walk folder] lists the files [os.walk] meets under [folder]. The two
    [pd.to_numeric(..., errors="coerce")] of the frame turn [None] into NaN,
    which are the same [None] here. *)
Definition preprocess_data (walk : string → list dir_entry)
    : list effect * list DailyRecord :=
  let '(data_dict, out) := scan walk in
  match rows_of data_dict with
  | [] => (out ++ [Print NoDataFound], [])
  | rows =>
      let df := sort_values rows in
      (out ++ [ToCsv df; Print (Saved (length df))], df)
  end.
End Ingestor.

(** ** Derivation: means *)

Definition Qc_of_nat (n : nat) : Qc := Qc_of_Z (Z.of_nat n).

Definition total (xs : list Qc) : Qc := foldr Qcplus 0%Qc xs.

(** [Series.mean()]: missing values are skipped; no value left gives NaN. *)
Definition mean (s : list (option Qc)) : option Qc :=
  match omap id s with
  | [] => None
  | obs => Some (total obs / Qc_of_nat (length obs))%Qc
  end.

(** [Series.rolling(window).mean()] at position [i]: the window is the at
    most [window] positions that end at [i]; [min_periods] defaults to
    [window], so fewer observed values than that give NaN. *)
Definition rolling_mean_at (window : nat) (s : list (option Qc)) (i : nat)
    : option Qc :=
  let obs := omap id (drop (S i - window) (take (S i) s)) in
  if decide (window ≤ length obs)%nat
  then Some (total obs / Qc_of_nat (length obs))%Qc
  else None.


(** The three column assignments of script.py 59, 67 and 76, row by row. *)
Definition derive (df : list DailyRecord) : list DerivedPoint :=
  imap (λ i r, mkPoint r (rolling_mean_at 30 (PR <$> df) i)
                       (get_budget (Date r)) (get_color (GHI r))) df.

(** ** Summary: points above the budget (script.py 78-80) *)

Definition valid_df (pts : list DerivedPoint) : list DerivedPoint :=
  filter (λ p, is_Some (PR (record p))) pts.

(** One entry of [valid_df['PR'] > valid_df['Budget_PR']]. *)
Definition above (p : DerivedPoint) : bool :=
  match PR (record p) with
  | Some pr => bool_decide (Budget_PR p < pr)%Qc
  | None => false
  end.

Definition above_count (pts : list DerivedPoint) : nat :=
  length (filter (λ p, above p) (valid_df pts)).

Definition total_count (pts : list DerivedPoint) : nat :=
  length (valid_df pts).

(** ** Summary: trailing averages (script.py 123-126) *)

(** [df['Date'].max()] and [.min()]; the frame is not empty where they are
    used (0 stands for NaT). *)
Definition Date_max (df : list DailyRecord) : date :=
  match Date <$> df with
  | [] => 0
  | d :: ds => foldl Z.max d ds
  end.

Definition Date_min (df : list DailyRecord) : date :=
  match Date <$> df with
  | [] => 0
  | d :: ds => foldl Z.min d ds
  end.

Definition avg (df : list DailyRecord) (days : Z) : option Qc :=
  let today := Date_max df in
  mean (PR <$> filter (λ r, today - days < Date r) df).

(** ** Text of the annotations *)

(** Nearest integer, ties to even. *)
Definition round_half_even (x : Qc) : Z :=
  let n := Qnum x in
  let d := Z.pos (Qden x) in
  let fl := n / d in
  let r2 := 2 * (n mod d) in
  if r2 <? d then fl
  else if d <? r2 then fl + 1
  else if Z.even fl then fl else fl + 1.

(** [round(x, ndigits)] *)
Definition py_round (x : Qc) (ndigits : nat) : Qc :=
  let p := 10 ^ Z.of_nat ndigits in
  Q2Qc (round_half_even (x * Qc_of_Z p)%Qc # Z.to_pos p).

(** The format [.1f]; NaN prints as [nan]. *)
Definition format_1f (x : option Qc) : string :=
  match x with
  | None => "nan"
  | Some q =>
      let t := Z.abs (round_half_even (q * Qc_of_Z 10)%Qc) in
      (if bool_decide (q < 0)%Qc then "-" else "")
        +:+ pretty (t / 10) +:+ "." +:+ pretty (t mod 10)
  end.

(** The format [.1%]. *)
Definition format_pct (x : Qc) : string :=
  format_1f (Some (x * Qc_of_Z 100)%Qc) +:+ "%".

Definition y1 : Qc := lit 739 10.
Definition y2 : Qc := py_round (y1 * (1 - lit 8 1000))%Qc 1.
Definition y3 : Qc := py_round (y1 * (1 - lit 8 1000) ^ 2)%Qc 1.

(** [str] of a float with one decimal digit prints that digit, as [.1f] does. *)
Definition budget_label_text : string :=
  "Budget PR: [1Y=" +:+ format_1f (Some y1) +:+ "%, 2Y=" +:+ format_1f (Some y2)
    +:+ "%, 3Y=" +:+ format_1f (Some y3) +:+ "%]".

Definition annotation_text (pts : list DerivedPoint) : string :=
  let above_count := above_count pts in
  let total_count := total_count pts in
  if decide (0 < total_count)%nat then
    "Points above Target Budget PR = " +:+ pretty above_count +:+ "/"
      +:+ pretty total_count +:+ " = "
      +:+ format_pct (Qc_of_nat above_count / Qc_of_nat total_count)%Qc
  else "Points above Target Budget PR = N/A".

(** ** Plotting ([plot_pr_graph], script.py 52-152) and the entry point *)

Definition build_chart (df : list DailyRecord) : chart :=
  let pts := derive df in
  mkChart pts (Date_min df) (Date_max df) budget_label_text (annotation_text pts)
    (mkAverages (avg df 7) (avg df 30) (avg df 60) (avg df 90) (avg df 365)
                (mean (PR <$> df))).

(** [pd.to_datetime] leaves a date at its ordinal; the calls that place
    the window on the screen have no part in the result. *)
Definition plot_pr_graph (df : list DailyRecord) : list effect :=
  match df with
  | [] => [Print NoDataToPlot]
  | _ => let c := build_chart (sort_values df) in
         [SaveFig c; Show; Print Displayed]
  end.

Definition main (strptime : string → option date)
    (walk : string → list dir_entry) : list effect :=
  let '(out, df) := preprocess_data strptime walk in
  out ++ plot_pr_graph df.

(** A parser for the zero-padded names [YYYY-MM-DD], one instance of
    [strptime] to run the pipeline on. *)
Definition digit (c : ascii) : option Z :=
  let n := Z.of_nat (nat_of_ascii c) in
  if (48 <=? n) && (n <=? 57) then Some (n - 48) else None.

Definition parse_iso (s : string) : option date :=
  match s with
  | String a (String b (String c (String d (String "-"%char
      (String e (String f (String "-"%char (String g (String h EmptyString))))))))) =>
      a ← digit a; b ← digit b; c ← digit c; d ← digit d;
      e ← digit e; f ← digit f; g ← digit g; h ← digit h;
      let y := 1000 * a + 100 * b + 10 * c + d in
      let m := 10 * e + f in
      let dd := 10 * g + h in
      if (1 <=? y) && (1 <=? m) && (m <=? 12) && (1 <=? dd) && (dd <=? days_in_month y m)
      then Some (ymd y m dd) else None
  | _ => None
  end.

(** ** The specification's wording, to compare the code with *)

(** "years = floor((date - 2019-07-01) / 365 days), clamped to >= 0 (dates
    before the anchor use years = 0)" *)
Definition years_spec (d : date) : Z :=
  if decide (d < ymd 2019 7 1) then 0 else (d - ymd 2019 7 1) / 365.

(** "budget(date) = 73.9 x (1 - 0.008)^years" *)
Definition budget_spec (d : date) : Qc :=
  (lit 739 10 * (1 - lit 8 1000) ^ Z.to_nat (years_spec d))%Qc.

(** The colour classes as the specification names them. *)
Inductive color_class := NoData | Low | MidLow | MidHigh | High.

Definition class_of (c : color) : color_class :=
  match c with
  | gray => NoData
  | navy => Low
  | lightblue => MidLow
  | orange => MidHigh
  | brown => High
  end.

(** The arithmetic mean of a list of values. *)
Definition arith_mean (xs : list Qc) : Qc :=
  (total xs / Qc_of_nat (length xs))%Qc.

(** A file that is taken into the dict: its name ends in [.csv], the rest
    parses as the date [d], and it is read without error as [values]. *)
Definition accepted (strptime : string → option date) (f : dir_entry)
    (d : date) (values : list (list (option Qc))) : Prop :=
  endswith_csv (file f) = true
  ∧ strptime (replace_csv (file f)) = Some d
  ∧ df_csv f = Some values.

(** Valid for the code: the file is taken into the dict, whether or not a
    number is found in it. *)
Definition valid_file (strptime : string → option date) (f : dir_entry) : Prop :=
  ∃ d values, accepted strptime f d values.

(** Valid in the words of the specification: the name parses as a date and
    the content yields a numeric value; a file "whose content yields no
    coercible numeric value" is not. *)
Definition yields_value (strptime : string → option date) (f : dir_entry)
    : Prop :=
  ∃ d values v, accepted strptime f d values ∧ first_value values = Some v.

(** "the mean of the defined PR values": the values added one after the
    other, over their number; no value, no mean. *)
Definition sum_spec (xs : list Qc) : Qc := foldl Qcplus 0%Qc xs.

Definition mean_spec (xs : list Qc) : option Qc :=
  match xs with
  | [] => None
  | _ => Some (sum_spec xs / Qc_of_Z (Z.of_nat (length xs)))%Qc
  end.

(** Four days of July 2019 for the 7-day window of 2019-07-12: the 5th lies
    exactly 7 days back, the 9th has no PR. *)
Definition window_frame : list DailyRecord :=
  [mkRow (ymd 2019 7 5) None (Some (lit 30 1));
   mkRow (ymd 2019 7 6) None (Some (lit 80 1));
   mkRow (ymd 2019 7 9) None None;
   mkRow (ymd 2019 7 12) None (Some (lit 70 1))].

(** The directory tree with the given files under [PR] and [GHI]. *)
Definition sample_walk (pr ghi : list dir_entry) (folder : string)
    : list dir_entry :=
  if String.eqb folder "PR" then pr
  else if String.eqb folder "GHI" then ghi else [].

(** Where the values of the dict come from: each stored value is the first
    value of an accepted file that [P] relates to the key. *)
Definition provenance (strptime : string → option date)
    (P : string → dir_entry → Prop)
    (data_dict : list (date * gmap string (option Qc))) : Prop :=
  ∀ d m key v, (d, m) ∈ data_dict → m !! key = Some v →
    ∃ f values, accepted strptime f d values ∧ first_value values = v ∧ P key f.

(** Three files on two dates: PR on both days, GHI on the later one. *)
Definition sample_tree : string → list dir_entry :=
  sample_walk [mkEntry "2019-07-03.csv" (Some [[None; Some (lit 80 1)]]);
               mkEntry "2019-07-01.csv" (Some [[Some (lit 70 1)]])]
              [mkEntry "2019-07-03.csv" (Some [[Some (lit 5 1)]])].

(** A frame of consecutive days from 2019-07-01 on with the given PR values
    and no GHI, to run the derivation on. *)
Definition sample_frame (prs : list (option Qc)) : list DailyRecord :=
  imap (λ k pr, mkRow (start + Z.of_nat k) None pr) prs.

(** ** Reading the dict back *)

(** [data_dict.get(date)] *)
Fixpoint dict_get (data_dict : list (date * gmap string (option Qc)))
    (d : date) : option (gmap string (option Qc)) :=
  match data_dict with
  | [] => None
  | (d', values) :: rest =>
      if decide (d' = d) then Some values else dict_get rest d
  end.

(** What a file brings into the dict: its date and its value, or nothing
    when it is passed over or skipped. *)
Definition taken (strptime : string → option date) (f : dir_entry)
    : option (date * option Qc) :=
  if endswith_csv (file f) then
    match strptime (replace_csv (file f)), df_csv f with
    | Some d, Some values => Some (d, first_value values)
    | _, _ => None
    end
  else None.

(** The values the files of one folder bring for the date [d], in the
    order of the walk. *)
Definition values_for (strptime : string → option date)
    (files : list dir_entry) (d : date) : list (option Qc) :=
  omap (λ f, match taken strptime f with
             | Some (d', v) => if decide (d' = d) then Some v else None
             | None => None
             end) files.

(** The files that are reported as skipped. *)
Definition skipped_files (strptime : string → option date)
    (files : list dir_entry) : list dir_entry :=
  filter (λ f, endswith_csv (file f) ∧ taken strptime f = None) files.

(** * Properties *)

Example start_ordinal : start = 737241.
Proof. reflexivity. Qed.

Example parse_start : parse_iso (replace_csv "2019-07-01.csv") = Some start.
Proof. reflexivity. Qed.

Example color_2 : get_color (Some (lit 2 1)) = lightblue.
Proof. vm_compute. reflexivity. Qed.

Example budget_start : get_budget start = base.
Proof. apply Qc_is_canon. vm_compute. reflexivity. Qed.

Example budget_label_value : budget_label_text = "Budget PR: [1Y=73.9%, 2Y=73.3%, 3Y=72.7%]".
Proof. vm_compute. reflexivity. Qed.

(** ** Facts on rationals *)

(** Order goals on [Qc] with literals, sent to [lra] on [Q]. *)
Ltac Qc_to_Q :=
  unfold Qclt, Qcle, lit in *; cbn [this Q2Qc] in *;
  repeat match goal with
  | H : context [Qred ?q] |- _ =>
      let v := eval vm_compute in (Qred q) in change (Qred q) with v in H
  | |- context [Qred ?q] =>
      let v := eval vm_compute in (Qred q) in change (Qred q) with v
  end.


Lemma decay_nonneg : (0 ≤ decay)%Qc.
Proof. by vm_compute. Qed.

Lemma decay_le_1 : (decay ≤ 1)%Qc.
Proof. by vm_compute. Qed.

Lemma base_nonneg : (0 ≤ base)%Qc.
Proof. by vm_compute. Qed.

Lemma Qcpower_step_le (q : Qc) (n : nat) :
  (0 ≤ q)%Qc → (q ≤ 1)%Qc → (q ^ S n ≤ q ^ n)%Qc.
Proof.
  intros H0 H1. simpl.
  rewrite <-(Qcmult_1_l (q ^ n)) at 2.
  apply Qcmult_le_compat_r; [done | by apply Qcpower_pos].
Qed.

Lemma Qcpower_antitone (q : Qc) (n m : nat) :
  (0 ≤ q)%Qc → (q ≤ 1)%Qc → (n ≤ m)%nat → (q ^ m ≤ q ^ n)%Qc.
Proof.
  intros H0 H1 Hnm. induction Hnm as [|m Hnm IH]; [apply Qcle_refl |].
  eapply Qcle_trans; [by apply Qcpower_step_le | exact IH].
Qed.

(** ** The budget curve *)

Lemma budget_years_spec (d : date) : budget_years d = years_spec d.
Proof.
  unfold budget_years, years_spec, start. case_decide as Hd.
  - apply Z.max_l. apply Z.lt_le_incl, Z.div_lt_upper_bound; lia.
  - apply Z.max_r. apply Z.div_pos; lia.
Qed.

Lemma budget_years_mono (d1 d2 : date) :
  d1 ≤ d2 → budget_years d1 ≤ budget_years d2.
Proof.
  intros H. unfold budget_years.
  apply Z.max_le_compat_l, Z.div_le_mono; lia.
Qed.

Lemma get_budget_antitone (d1 d2 : date) :
  d1 ≤ d2 → (get_budget d2 ≤ get_budget d1)%Qc.
Proof.
  intros H. unfold get_budget.
  apply Qcmult_le_mono_nonneg_l; [apply base_nonneg |].
  apply Qcpower_antitone; [apply decay_nonneg | apply decay_le_1 |].
  apply Z2Nat.inj_le; [unfold budget_years; lia .. |].
  by apply budget_years_mono.
Qed.

Lemma derive_lookup (df : list DailyRecord) (i : nat) :
  derive df !! i =
    (λ r, mkPoint r (rolling_mean_at 30 (PR <$> df) i)
                  (get_budget (Date r)) (get_color (GHI r))) <$> df !! i.
Proof. unfold derive. by rewrite list_lookup_imap. Qed.

Lemma length_derive (df : list DailyRecord) : length (derive df) = length df.
Proof. unfold derive. by rewrite length_imap. Qed.

Example budget_2020_07_02 : get_budget (ymd 2020 7 2) = (lit 739 10 * lit 992 1000)%Qc.
Proof. apply Qc_is_canon. by vm_compute. Qed.

(** C1. For every record date [d] the budget value is
    73.9 x (1 - 0.008)^years with years = floor((d - 2019-07-01) / 365),
    clamped at 0 (0 before the anchor); it is 73.9 at 2019-07-01; it is
    non-increasing from 2019-07-01 on; and every row of the frame gets it,
    whatever its PR and GHI are. *)
Theorem budget_curve (df : list DailyRecord) (i : nat) (r : DailyRecord)
    (d1 d2 : date) :
  get_budget d1 = budget_spec d1
  ∧ get_budget (ymd 2019 7 1) = lit 739 10
  ∧ (ymd 2019 7 1 ≤ d1 → d1 ≤ d2 → (get_budget d2 ≤ get_budget d1)%Qc)
  ∧ length (derive df) = length df
  ∧ (df !! i = Some r →
       ∃ p, derive df !! i = Some p ∧ record p = r
            ∧ Budget_PR p = budget_spec (Date r)).
Proof.
  assert (Hspec : ∀ d, get_budget d = budget_spec d).
  { intros d. unfold get_budget, budget_spec. by rewrite budget_years_spec. }
  split_and!.
  - apply Hspec.
  - apply Qc_is_canon. by vm_compute.
  - intros _ H. by apply get_budget_antitone.
  - apply length_derive.
  - intros Hr. rewrite derive_lookup, Hr. simpl.
    eexists; split_and!; [done | done |]. simpl. apply Hspec.
Qed.

Lemma budget_curve_witness :
  (get_budget (ymd 2021 3 15) ≤ get_budget (ymd 2019 12 31))%Qc
  ∧ ∃ p, derive [mkRow (ymd 2021 3 15) None None] !! 0%nat = Some p
         ∧ record p = mkRow (ymd 2021 3 15) None None
         ∧ Budget_PR p = budget_spec (ymd 2021 3 15).
Proof.
  destruct (budget_curve [mkRow (ymd 2021 3 15) None None] 0
              (mkRow (ymd 2021 3 15) None None) (ymd 2019 12 31) (ymd 2021 3 15))
    as (_ & _ & Hmono & _ & Hrow).
  split.
  - apply Hmono; vm_compute; discriminate.
  - apply Hrow. reflexivity.
Defined.

(** ** The colour classes *)

(** C6. [get_color] is a total function of [ghi] into the five classes:
    undefined gives NoData, ghi < 2 Low, 2 <= ghi < 4 MidLow,
    4 <= ghi < 6 MidHigh, ghi >= 6 High; in particular 2 is MidLow, 4 is
    MidHigh and 6 is High. *)
Theorem get_color_classes (g : Qc) :
  class_of (get_color None) = NoData
  ∧ ((g < lit 2 1)%Qc ↔ class_of (get_color (Some g)) = Low)
  ∧ ((lit 2 1 ≤ g)%Qc ∧ (g < lit 4 1)%Qc ↔ class_of (get_color (Some g)) = MidLow)
  ∧ ((lit 4 1 ≤ g)%Qc ∧ (g < lit 6 1)%Qc ↔ class_of (get_color (Some g)) = MidHigh)
  ∧ ((lit 6 1 ≤ g)%Qc ↔ class_of (get_color (Some g)) = High)
  ∧ class_of (get_color (Some g)) ≠ NoData
  ∧ class_of (get_color (Some (lit 2 1))) = MidLow
  ∧ class_of (get_color (Some (lit 4 1))) = MidHigh
  ∧ class_of (get_color (Some (lit 6 1))) = High.
Proof.
  unfold get_color.
  split_and!; try (by vm_compute).
  all: repeat case_bool_decide; simpl.
  all: try (split; [intros ?|intros ?]); try done.
  all: try match goal with H : _ ∧ _ |- _ => destruct H end.
  all: Qc_to_Q; first [lra | split; lra | exfalso; lra].
Qed.

Lemma get_color_classes_witness : class_of (get_color (Some (lit 3 1))) = MidLow.
Proof.
  destruct (get_color_classes (lit 3 1)) as (_ & _ & [Hmid _] & _).
  apply Hmid. split; by vm_compute.
Defined.

(** ** The moving average *)


Lemma length_omap_id_le (w : list (option Qc)) :
  (length (omap id w) ≤ length w)%nat.
Proof. induction w as [|[x|] w IH]; csimpl; lia. Qed.

Lemma length_omap_id_lt (w : list (option Qc)) :
  None ∈ w → (length (omap id w) < length w)%nat.
Proof.
  induction w as [|[x|] w IH]; intros Hin.
  - by apply not_elem_of_nil in Hin.
  - apply elem_of_cons in Hin as [|Hin]; [done |]. csimpl. apply IH in Hin. lia.
  - csimpl. pose proof (length_omap_id_le w). lia.
Qed.



Lemma rolling_mean_at_early (window : nat) (s : list (option Qc)) (i : nat) :
  (S i < window)%nat → rolling_mean_at window s i = None.
Proof.
  intros Hi. unfold rolling_mean_at. case_decide as Hlen; [|done].
  pose proof (length_omap_id_le (drop (S i - window) (take (S i) s))) as Hle.
  rewrite length_drop, length_take in Hle. lia.
Qed.


Lemma rolling_mean_at_gap (s : list (option Qc)) (i : nat) :
  (i < length s)%nat → None ∈ drop (i - 29) (take (S i) s) →
  rolling_mean_at 30 s i = None.
Proof.
  intros Hlt Hin. unfold rolling_mean_at.
  change (S i - 30)%nat with (i - 29)%nat.
  apply length_omap_id_lt in Hin.
  rewrite length_drop, length_take in Hin.
  rewrite decide_False; [done | lia].
Qed.


Lemma Qc_of_nat_S (k : nat) : Qc_of_nat (S k) = (1 + Qc_of_nat k)%Qc.
Proof.
  unfold Qc_of_nat.
  by rewrite Nat2Z.inj_succ, <-Z.add_1_l, Z2Qc_inj_add, Z2Qc_inj_1.
Qed.

Lemma Qc_of_nat_ne_0 (k : nat) : (0 < k)%nat → Qc_of_nat k ≠ 0%Qc.
Proof.
  intros Hk H0. unfold Qc_of_nat in H0.
  rewrite <-Z2Qc_inj_0 in H0. apply Z2Qc_inj in H0. lia.
Qed.

Lemma total_replicate (k : nat) (c : Qc) :
  total (replicate k c) = (Qc_of_nat k * c)%Qc.
Proof.
  induction k as [|k IH].
  - change (Qc_of_nat 0) with (Qc_of_Z 0). rewrite Z2Qc_inj_0. simpl. ring.
  - rewrite Qc_of_nat_S. simpl. rewrite IH. ring.
Qed.

Lemma arith_mean_replicate (k : nat) (c : Qc) :
  (0 < k)%nat → arith_mean (replicate k c) = c.
Proof.
  intros Hk. unfold arith_mean. rewrite total_replicate, length_replicate.
  field. by apply Qc_of_nat_ne_0.
Qed.


Lemma PR_sample_frame (prs : list (option Qc)) : PR <$> sample_frame prs = prs.
Proof.
  unfold sample_frame. rewrite fmap_imap. apply list_eq. intros i.
  rewrite list_lookup_imap. by destruct (prs !! i).
Qed.



(** ** Trailing averages *)

Lemma omap_id_fmap {A} (f : A → option Qc) (l : list A) :
  omap id (f <$> l) = omap f l.
Proof.
  induction l as [|x l IH]; [done |]. csimpl. rewrite IH. by destruct (f x).
Qed.

Lemma mean_observed (s : list (option Qc)) :
  mean s = match omap id s with
           | [] => None
           | _ => Some (arith_mean (omap id s))
           end.
Proof. unfold mean, arith_mean. by destruct (omap id s). Qed.

Lemma foldl_max_le (d : Z) (ds : list Z) : d ≤ foldl Z.max d ds.
Proof.
  revert d. induction ds as [|x ds IH]; intros d; simpl; [lia |].
  etrans; [|apply IH]. lia.
Qed.

Lemma foldl_max_upper (d : Z) (ds : list Z) (x : Z) :
  x ∈ ds → x ≤ foldl Z.max d ds.
Proof.
  revert d. induction ds as [|y ds IH]; intros d Hin.
  - by apply not_elem_of_nil in Hin.
  - simpl. apply elem_of_cons in Hin as [->|Hin]; [|by apply IH].
    etrans; [|apply foldl_max_le]. lia.
Qed.

Lemma foldl_max_elem (d : Z) (ds : list Z) : foldl Z.max d ds ∈ d :: ds.
Proof.
  revert d. induction ds as [|y ds IH]; intros d; simpl.
  - apply list_elem_of_here.
  - specialize (IH (Z.max d y)).
    apply elem_of_cons in IH as [->|IH].
    + destruct (Z.max_spec d y) as [[_ ->]|[_ ->]];
        [apply list_elem_of_further, list_elem_of_here | apply list_elem_of_here].
    + by do 2 apply list_elem_of_further.
Qed.

Lemma Date_max_upper (df : list DailyRecord) (r : DailyRecord) :
  r ∈ df → Date r ≤ Date_max df.
Proof.
  intros Hin. apply (list_elem_of_fmap_2 Date) in Hin.
  unfold Date_max. destruct (Date <$> df) as [|d ds].
  - by apply not_elem_of_nil in Hin.
  - apply elem_of_cons in Hin as [->|Hin];
      [apply foldl_max_le | by apply foldl_max_upper].
Qed.

Lemma Date_max_attained (df : list DailyRecord) :
  df ≠ [] → ∃ r, r ∈ df ∧ Date r = Date_max df.
Proof.
  intros Hne. unfold Date_max.
  destruct (Date <$> df) as [|d ds] eqn:Hd.
  - by apply fmap_nil_inv in Hd.
  - assert (Hin : foldl Z.max d ds ∈ Date <$> df)
      by (rewrite Hd; apply foldl_max_elem).
    apply list_elem_of_fmap in Hin as (r & Heq & Hin). eauto.
Qed.

Lemma avg_candidates (df : list DailyRecord) (days : Z) :
  avg df days =
    match omap PR (filter (λ r, Date_max df - days < Date r) df) with
    | [] => None
    | obs => Some (arith_mean obs)
    end.
Proof.
  unfold avg. rewrite mean_observed, omap_id_fmap.
  by destruct (omap PR _).
Qed.

Lemma foldl_Qcplus_total (a : Qc) (xs : list Qc) :
  foldl Qcplus a xs = (a + total xs)%Qc.
Proof.
  revert a. induction xs as [|x xs IH]; intros a; simpl.
  - ring.
  - rewrite IH. fold (total xs). ring.
Qed.

Lemma mean_spec_observed (xs : list Qc) :
  mean_spec xs = match xs with
                 | [] => None
                 | _ => Some (arith_mean xs)
                 end.
Proof.
  unfold mean_spec, sum_spec, arith_mean, Qc_of_nat.
  destruct xs as [|x xs]; [done |].
  rewrite foldl_Qcplus_total. do 2 f_equal. ring.
Qed.

(** C3. For a non-empty frame and each window [w] of 7, 30, 60, 90 or 365
    days, the trailing average is the mean of the defined PR values of
    exactly the rows whose date is strictly greater than (the maximum date
    of the frame) - w days: their sum over their number; when those rows
    hold no defined PR the result is the undefined value, which the summary
    box prints as [nan]. On the rows of 5, 6, 9 and 12 July with PR 30, 80,
    none and 70, the 7-day average is 75 (the row 7 days back and the row
    without PR are left out) and the 30-day average is 60. *)
Theorem trailing_average (df : list DailyRecord) (w : Z) :
  df ≠ [] → w ∈ [7; 30; 60; 90; 365] →
  let anchor := Date_max df in
  let candidates := filter (λ r, anchor - w < Date r) df in
  (∀ r, r ∈ df → Date r ≤ anchor)
  ∧ (∃ r, r ∈ df ∧ Date r = anchor)
  ∧ (∀ r, r ∈ candidates ↔ r ∈ df ∧ anchor - w < Date r)
  ∧ avg df w = mean_spec (omap PR candidates)
  ∧ (omap PR candidates ≠ [] →
       avg df w = Some (arith_mean (omap PR candidates)))
  ∧ (omap PR candidates = [] →
       avg df w = None ∧ format_1f (avg df w) = "nan")
  ∧ (∀ x, omap PR candidates = [x] → avg df w = Some x)
  ∧ avg_box (build_chart df)
    = mkAverages (avg df 7) (avg df 30) (avg df 60) (avg df 90) (avg df 365)
                 (mean (PR <$> df))
  ∧ avg window_frame 7 = Some (lit 75 1)
  ∧ avg window_frame 30 = Some (lit 60 1).
Proof.
  intros Hne _ anchor candidates. split_and!.
  - intros r. apply Date_max_upper.
  - by apply Date_max_attained.
  - intros r. unfold candidates. rewrite list_elem_of_filter. tauto.
  - rewrite avg_candidates, mean_spec_observed. fold anchor candidates.
    by destruct (omap PR candidates).
  - intros Hobs. rewrite avg_candidates. fold anchor candidates.
    by destruct (omap PR candidates).
  - intros Hobs. rewrite avg_candidates. fold anchor candidates.
    by rewrite Hobs.
  - intros x Hobs. rewrite avg_candidates. fold anchor candidates.
    rewrite Hobs. f_equal. apply (arith_mean_replicate 1 x). lia.
  - done.
  - transitivity (Some (arith_mean [lit 80 1; lit 70 1])); [by vm_compute |].
    apply f_equal, Qc_is_canon. by vm_compute.
  - transitivity (Some (arith_mean [lit 30 1; lit 80 1; lit 70 1]));
      [by vm_compute |].
    apply f_equal, Qc_is_canon. by vm_compute.
Qed.

Lemma trailing_average_witness :
  avg window_frame 7 = Some (lit 75 1)
  ∧ avg window_frame 7 = mean_spec [lit 80 1; lit 70 1]
  ∧ avg (sample_frame [None; Some (lit 80 1)]) 7 = Some (lit 80 1)
  ∧ avg (sample_frame [None; None]) 30 = None.
Proof.
  assert (Hw7 : (7 : Z) ∈ [7; 30; 60; 90; 365]) by apply list_elem_of_here.
  assert (Hw30 : (30 : Z) ∈ [7; 30; 60; 90; 365])
    by apply list_elem_of_further, list_elem_of_here.
  split_and!.
  - by destruct (trailing_average window_frame 7)
      as (_ & _ & _ & _ & _ & _ & _ & _ & H75 & _).
  - by destruct (trailing_average window_frame 7) as (_ & _ & _ & Hspec & _).
  - destruct (trailing_average (sample_frame [None; Some (lit 80 1)]) 7)
      as (_ & _ & _ & _ & _ & _ & Hone & _); [done | done |].
    apply Hone. reflexivity.
  - destruct (trailing_average (sample_frame [None; None]) 30)
      as (_ & _ & _ & _ & _ & Hnone & _); [done | done |].
    apply Hnone. reflexivity.
Defined.

(** C4, counterexample. A frame of one row with a defined PR: the row's
    date is the anchor, it lies strictly after anchor - 7 days, and the
    7-day average is that PR, not the undefined value. *)
Lemma single_record_average_counterexample :
  let df := [mkRow (ymd 2019 7 1) None (Some (lit 80 1))] in
  length df = 1%nat ∧ Date_max df = ymd 2019 7 1
  ∧ avg df 7 = Some (arith_mean [lit 80 1]) ∧ avg df 7 ≠ None.
Proof. intros df. split_and!; done. Qed.

Lemma arith_mean_singleton (x : Qc) : arith_mean [x] = x.
Proof. apply (arith_mean_replicate 1 x). lia. Qed.

(** C4, amended. In a frame of exactly one row that row is the anchor and
    satisfies date > anchor - 7 days, so the 7-day trailing average is the
    row's PR: undefined exactly when that PR is undefined. *)
Theorem single_record_average (r : DailyRecord) :
  Date_max [r] = Date r
  ∧ Date_max [r] - 7 < Date r
  ∧ avg [r] 7 = PR r
  ∧ (avg [r] 7 = None ↔ PR r = None).
Proof.
  assert (Havg : avg [r] 7 = PR r).
  { rewrite avg_candidates. change (Date_max [r]) with (Date r).
    rewrite filter_cons_True, filter_nil by lia. csimpl.
    destruct (PR r) as [x|]; [|done]. simpl. by rewrite arith_mean_singleton. }
  split_and!; [done | change (Date_max [r]) with (Date r); lia | done |].
  by rewrite Havg.
Qed.

(** ** Points above the budget *)

Lemma above_spec (p : DerivedPoint) :
  above p = true ↔ ∃ pr, PR (record p) = Some pr ∧ (Budget_PR p < pr)%Qc.
Proof.
  unfold above. destruct (PR (record p)) as [pr|].
  - rewrite bool_decide_eq_true. split; [eauto | by intros (? & [= <-] & ?)].
  - split; [done | by intros (? & ? & _)].
Qed.

Lemma above_valid (p : DerivedPoint) : above p → is_Some (PR (record p)).
Proof.
  intros H%Is_true_true%above_spec. destruct H as (pr & -> & _). by eexists.
Qed.

Lemma above_count_all (pts : list DerivedPoint) :
  above_count pts = length (filter (λ p, above p) pts).
Proof.
  unfold above_count, valid_df. induction pts as [|p pts IH]; [done |].
  rewrite !filter_cons. destruct (decide (is_Some (PR (record p)))) as [Hv|Hv].
  - rewrite filter_cons. destruct (decide (above p)); simpl; by rewrite IH.
  - rewrite decide_False; [done |]. intros Ha. by apply Hv, above_valid.
Qed.

Lemma above_count_le_total (pts : list DerivedPoint) :
  (above_count pts ≤ total_count pts)%nat.
Proof. unfold above_count, total_count. apply length_filter. Qed.

(** C5. The count of points above the budget runs over the rows with a
    defined PR only and counts those whose PR is strictly greater than
    their budget; the ratio is count / valid count; with no valid row the
    annotation reads N/A and nothing is divided. For PR = 80, 70, 73.9, 60
    against a budget of 73.9 the count is 1 of 4 and the ratio 0.25. *)
Theorem above_budget_ratio (pts : list DerivedPoint) :
  (∀ p, p ∈ valid_df pts ↔ p ∈ pts ∧ is_Some (PR (record p)))
  ∧ total_count pts = length (valid_df pts)
  ∧ (∀ p, above p = true ↔
          ∃ pr, PR (record p) = Some pr ∧ (Budget_PR p < pr)%Qc)
  ∧ above_count pts = length (filter (λ p, above p) (valid_df pts))
  ∧ above_count pts = length (filter (λ p, above p) pts)
  ∧ (above_count pts ≤ total_count pts)%nat
  ∧ (total_count pts = 0%nat →
       annotation_text pts = "Points above Target Budget PR = N/A")
  ∧ ((0 < total_count pts)%nat →
       annotation_text pts
       = "Points above Target Budget PR = " +:+ pretty (above_count pts)
           +:+ "/" +:+ pretty (total_count pts) +:+ " = "
           +:+ format_pct (Qc_of_nat (above_count pts)
                           / Qc_of_nat (total_count pts))%Qc)
  ∧ (let ex := derive (sample_frame [Some (lit 80 1); Some (lit 70 1);
                                     Some (lit 739 10); Some (lit 60 1)]) in
     Forall (λ p, Budget_PR p = lit 739 10) ex
     ∧ total_count ex = 4%nat ∧ above_count ex = 1%nat
     ∧ (Qc_of_nat (above_count ex) / Qc_of_nat (total_count ex))%Qc = lit 25 100
     ∧ annotation_text ex = "Points above Target Budget PR = 1/4 = 25.0%").
Proof.
  split_and!.
  - intros p. unfold valid_df. rewrite list_elem_of_filter. tauto.
  - done.
  - apply above_spec.
  - done.
  - apply above_count_all.
  - apply above_count_le_total.
  - intros H0. unfold annotation_text. rewrite H0. done.
  - intros Hpos. unfold annotation_text. by rewrite decide_True.
  - intros ex. split_and!.
    + repeat constructor; apply Qc_is_canon; by vm_compute.
    + by vm_compute.
    + by vm_compute.
    + apply Qc_is_canon. by vm_compute.
    + by vm_compute.
Qed.

Lemma above_budget_ratio_witness :
  annotation_text (derive (sample_frame [None; None]))
    = "Points above Target Budget PR = N/A"
  ∧ annotation_text (derive (sample_frame [Some (lit 80 1); None]))
    = "Points above Target Budget PR = 1/1 = 100.0%".
Proof.
  split.
  - apply (above_budget_ratio (derive (sample_frame [None; None]))).
    reflexivity.
  - destruct (above_budget_ratio (derive (sample_frame [Some (lit 80 1); None])))
      as (_ & _ & _ & _ & _ & _ & _ & Hpos & _).
    rewrite Hpos; [by vm_compute | vm_compute; lia].
Defined.

(** ** The budget milestones of the label *)

(** C10. The three milestones of the budget label come from the decay
    formula of the budget curve: 1Y is the budget of every date in the first
    year after 2019-07-01 (years = 0), 2Y and 3Y are the budgets of the
    second and third year (years = 1 and 2), each at the one decimal the
    label shows. *)
Theorem budget_milestones (d : date) :
  (budget_years d = 0 → y1 = get_budget d ∧ y1 = py_round (get_budget d) 1)
  ∧ (budget_years d = 1 → y2 = py_round (get_budget d) 1)
  ∧ (budget_years d = 2 → y3 = py_round (get_budget d) 1)
  ∧ y1 = py_round (base * decay ^ 0)%Qc 1
  ∧ y2 = py_round (base * decay ^ 1)%Qc 1
  ∧ y3 = py_round (base * decay ^ 2)%Qc 1
  ∧ y1 = lit 739 10 ∧ y2 = lit 733 10 ∧ y3 = lit 727 10
  ∧ budget_label_text = "Budget PR: [1Y=73.9%, 2Y=73.3%, 3Y=72.7%]".
Proof.
  split_and!; try (intros Hy; unfold get_budget; rewrite Hy; try split);
    try (apply Qc_is_canon); by vm_compute.
Qed.

Lemma budget_milestones_witness :
  y1 = get_budget (ymd 2020 1 15)
  ∧ y2 = py_round (get_budget (ymd 2020 7 1)) 1
  ∧ y3 = py_round (get_budget (ymd 2022 6 29)) 1.
Proof.
  destruct (budget_milestones (ymd 2020 1 15)) as (H1 & _).
  destruct (budget_milestones (ymd 2020 7 1)) as (_ & H2 & _).
  destruct (budget_milestones (ymd 2022 6 29)) as (_ & _ & H3 & _).
  split_and!.
  - apply H1. reflexivity.
  - apply H2. reflexivity.
  - apply H3. reflexivity.
Defined.

(** ** Ingestion: the dict and the sorted frame *)

#[global] Instance by_Date_trans : Transitive by_Date.
Proof. intros r1 r2 r3. unfold by_Date. lia. Qed.

#[global] Instance by_Date_total : Total by_Date.
Proof. intros r1 r2. unfold by_Date. lia. Qed.

Lemma setdefault_set_keys (dd : list (date * gmap string (option Qc)))
    (d : date) (k : string) (v : option Qc) :
  (setdefault_set dd d k v).*1
  = dd.*1 ++ (if decide (d ∈ dd.*1) then [] else [d]).
Proof.
  induction dd as [|[d' m] dd IH].
  - destruct (decide (d ∈ _)) as [Hin|_]; [by apply not_elem_of_nil in Hin | done].
  - cbn [setdefault_set]. destruct (decide (d' = d)) as [->|Hne]; csimpl.
    + rewrite decide_True by apply list_elem_of_here. by rewrite app_nil_r.
    + rewrite IH. f_equal. f_equal.
      destruct (decide (d ∈ dd.*1)) as [Hin|Hin].
      * rewrite decide_True; [done | by apply list_elem_of_further].
      * rewrite decide_False; [done |].
        intros [?|?]%elem_of_cons; [by apply Hne | by apply Hin].
Qed.

Lemma setdefault_set_NoDup (dd : list (date * gmap string (option Qc)))
    (d : date) (k : string) (v : option Qc) :
  NoDup dd.*1 → NoDup (setdefault_set dd d k v).*1.
Proof.
  intros Hnd. rewrite setdefault_set_keys. case_decide as Hin.
  - by rewrite app_nil_r.
  - apply NoDup_app. split_and!; [done | | apply NoDup_singleton].
    intros x Hx ->%list_elem_of_singleton. by apply Hin.
Qed.

Lemma setdefault_set_elem (dd : list (date * gmap string (option Qc)))
    (d : date) (k : string) (v : option Qc)
    (d' : date) (m' : gmap string (option Qc)) :
  (d', m') ∈ setdefault_set dd d k v →
  (d', m') ∈ dd
  ∨ (d' = d ∧ ∃ m0, m' = <[k := v]> m0 ∧ (m0 = ∅ ∨ (d, m0) ∈ dd)).
Proof.
  induction dd as [|[d0 m0] dd IH]; simpl.
  - intros [= -> ->]%list_elem_of_singleton. right. eauto.
  - destruct (decide (d0 = d)) as [->|Hne].
    + intros [[= -> ->]|Hin]%elem_of_cons.
      * right. split; [done |]. exists m0. split; [done |].
        right. apply list_elem_of_here.
      * left. by apply list_elem_of_further.
    + intros [[= -> ->]|Hin]%elem_of_cons.
      * left. apply list_elem_of_here.
      * destruct (IH Hin) as [?|(-> & m1 & -> & [->|?])].
        -- left. by apply list_elem_of_further.
        -- right. eauto.
        -- right. split; [done |]. exists m1. split; [done |].
           right. by apply list_elem_of_further.
Qed.

Lemma rows_of_dates (dd : list (date * gmap string (option Qc))) :
  Date <$> rows_of dd = dd.*1.
Proof. unfold rows_of. induction dd as [|[d m] dd IH]; [done |]. csimpl. by f_equal. Qed.

Lemma StronglySorted_le_lt (l : list Z) :
  StronglySorted Z.le l → NoDup l → StronglySorted Z.lt l.
Proof.
  induction 1 as [|x l Hs IH Hall]; intros Hnd; [constructor |].
  apply NoDup_cons in Hnd as [Hx Hnd]. constructor; [by apply IH |].
  rewrite Forall_forall in *. intros y Hy.
  specialize (Hall y Hy). assert (x ≠ y) by (by intros ->). lia.
Qed.

Lemma sort_values_dates_sorted (df : list DailyRecord) :
  NoDup (Date <$> df) →
  StronglySorted Z.lt (Date <$> sort_values df)
  ∧ NoDup (Date <$> sort_values df).
Proof.
  intros Hnd.
  assert (Hnd' : NoDup (Date <$> sort_values df)).
  { unfold sort_values. by rewrite merge_sort_Permutation. }
  split; [|done]. apply StronglySorted_le_lt; [|done].
  apply (StronglySorted_fmap _ by_Date); [done |].
  apply StronglySorted_merge_sort; apply _.
Qed.

Lemma StronglySorted_lt_lookup (l : list Z) (i j : nat) (x y : Z) :
  StronglySorted Z.lt l → (i < j)%nat → l !! i = Some x → l !! j = Some y →
  x < y.
Proof.
  intros Hs. revert i j. induction Hs as [|z l Hs IH Hall]; intros i j Hij Hi Hj.
  - done.
  - destruct j as [|j]; [lia |]. destruct i as [|i].
    + injection Hi as <-. rewrite Forall_forall in Hall.
      apply Hall. by eapply list_elem_of_lookup_2.
    + apply (IH i j); [lia | done | done].
Qed.

Section IngestorFacts.
Variable strptime : string → option date.

Lemma process_file_NoDup (folder : string)
    (st : list (date * gmap string (option Qc)) * list effect) (f : dir_entry) :
  NoDup st.1.*1 → NoDup (process_file strptime folder st f).1.*1.
Proof.
  intros Hnd. unfold process_file.
  repeat case_match; simpl; auto using setdefault_set_NoDup.
Qed.

Lemma foldl_process_NoDup (folder : string) (l : list dir_entry)
    (st : list (date * gmap string (option Qc)) * list effect) :
  NoDup st.1.*1 → NoDup (foldl (process_file strptime folder) st l).1.*1.
Proof.
  revert st. induction l as [|f l IH]; intros st Hnd; [done |].
  simpl. by apply IH, process_file_NoDup.
Qed.

Lemma scan_NoDup (walk : string → list dir_entry) :
  NoDup (scan strptime walk).1.*1.
Proof.
  unfold scan. simpl. do 2 apply foldl_process_NoDup. simpl. constructor.
Qed.

Lemma preprocess_data_df (walk : string → list dir_entry) :
  (preprocess_data strptime walk).2
  = sort_values (rows_of (scan strptime walk).1).
Proof.
  unfold preprocess_data. destruct (scan strptime walk) as [dd out]. simpl.
  by destruct (rows_of dd).
Qed.

(** C9. The frame returned by [preprocess_data] is sorted strictly
    ascending by date and no two rows share a date. *)
Theorem series_strictly_sorted (walk : string → list dir_entry) :
  let df := (preprocess_data strptime walk).2 in
  StronglySorted Z.lt (Date <$> df)
  ∧ NoDup (Date <$> df)
  ∧ (∀ i j r1 r2, (i < j)%nat → df !! i = Some r1 → df !! j = Some r2 →
       Date r1 < Date r2)
  ∧ (∀ i j r1 r2, df !! i = Some r1 → df !! j = Some r2 →
       Date r1 = Date r2 → i = j).
Proof.
  intros df. unfold df. rewrite preprocess_data_df.
  destruct (sort_values_dates_sorted (rows_of (scan strptime walk).1))
    as [Hs Hnd].
  { rewrite rows_of_dates. apply scan_NoDup. }
  split_and!; [done | done | |].
  - intros i j r1 r2 Hij H1 H2.
    apply (StronglySorted_lt_lookup _ i j _ _ Hs Hij);
      by rewrite list_lookup_fmap, ?H1, ?H2.
  - intros i j r1 r2 H1 H2 Heq.
    apply (NoDup_lookup _ i j (Date r1) Hnd);
      rewrite list_lookup_fmap, ?H1, ?H2; simpl; congruence.
Qed.
End IngestorFacts.

(** ** Ingestion: which files reach the frame *)

Section Reconciliation.
Variable strptime : string → option date.

Lemma process_file_accepted (folder : string)
    (st : list (date * gmap string (option Qc)) * list effect)
    (f : dir_entry) (d : date) (values : list (list (option Qc))) :
  folder = "PR" ∨ folder = "GHI" → accepted strptime f d values →
  process_file strptime folder st f
  = (setdefault_set st.1 d folder (first_value values), st.2).
Proof.
  intros Hfolder (Hcsv & Hd & Hv). unfold process_file.
  rewrite Hcsv, Hd, Hv. by destruct Hfolder as [-> | ->].
Qed.

Lemma process_file_rejected (folder : string)
    (st : list (date * gmap string (option Qc)) * list effect) (f : dir_entry) :
  ¬ valid_file strptime f →
  process_file strptime folder st f
  = (st.1, st.2 ++ if endswith_csv (file f)
                   then [Print (Skipping (file f))] else []).
Proof.
  intros Hinv. unfold process_file. destruct st as [dd out]. simpl.
  destruct (endswith_csv (file f)) eqn:Hcsv; [|by rewrite app_nil_r].
  destruct (strptime (replace_csv (file f))) as [d|] eqn:Hd; [|done].
  destruct (df_csv f) as [values|] eqn:Hv; [|done].
  destruct Hinv. by exists d, values.
Qed.

Lemma valid_file_dec (f : dir_entry) :
  valid_file strptime f ∨ ¬ valid_file strptime f.
Proof.
  unfold valid_file, accepted.
  destruct (endswith_csv (file f)); [|right; by intros (? & ? & ? & _)].
  destruct (strptime (replace_csv (file f))) as [d|];
    [|right; by intros (? & ? & _ & ? & _)].
  destruct (df_csv f) as [values|]; [|right; by intros (? & ? & _ & _ & ?)].
  left. by exists d, values.
Qed.

Lemma foldl_process_no_valid (folder : string) (l : list dir_entry)
    (st : list (date * gmap string (option Qc)) * list effect) :
  (∀ f, f ∈ l → ¬ valid_file strptime f) →
  foldl (process_file strptime folder) st l
  = (st.1, st.2 ++ (Print ∘ Skipping ∘ file
                      <$> filter (λ f, endswith_csv (file f)) l)).
Proof.
  revert st. induction l as [|f l IH]; intros st Hl.
  - destruct st. simpl. by rewrite app_nil_r.
  - simpl. rewrite process_file_rejected by (apply Hl, list_elem_of_here).
    rewrite IH by (intros f' Hf'; by apply Hl, list_elem_of_further). simpl.
    rewrite filter_cons. f_equal. rewrite <-app_assoc. f_equal.
    destruct (endswith_csv (file f)) eqn:Hcsv.
    + by rewrite decide_True by done.
    + by rewrite decide_False by (by intros []).
Qed.

(** C8, amended. When no file is taken in under [PR] and [GHI] (none at
    all, or only files that are passed over or skipped because the name
    does not parse or the content cannot be read), [preprocess_data]
    returns the empty frame, and the run prints the two notices and ends:
    nothing is written, no chart is built, saved or shown, and no error is
    raised. A file that is read but holds no number is taken in and does
    not belong here. *)
Theorem empty_input_short_circuit (walk : string → list dir_entry) :
  (∀ folder f, folder ∈ ["PR"; "GHI"]%string → f ∈ walk folder →
     ¬ valid_file strptime f) →
  let skipped := Print ∘ Skipping ∘ file
                   <$> filter (λ f, endswith_csv (file f))
                              (walk "PR" ++ walk "GHI") in
  preprocess_data strptime walk = (skipped ++ [Print NoDataFound], [])
  ∧ plot_pr_graph (preprocess_data strptime walk).2 = [Print NoDataToPlot]
  ∧ main strptime walk = skipped ++ [Print NoDataFound; Print NoDataToPlot]
  ∧ (∀ e, e ∈ main strptime walk → ∃ m, e = Print m)
  ∧ (walk "PR" = [] → walk "GHI" = [] →
       main strptime walk = [Print NoDataFound; Print NoDataToPlot]).
Proof.
  intros Hno skipped.
  assert (Hscan : scan strptime walk = ([], skipped)).
  { unfold scan. simpl.
    rewrite (foldl_process_no_valid "PR")
      by (intros f Hf; apply (Hno "PR"); [set_solver | done]).
    rewrite (foldl_process_no_valid "GHI")
      by (intros f Hf; apply (Hno "GHI"); [set_solver | done]).
    simpl. unfold skipped. by rewrite filter_app, fmap_app. }
  assert (Hpre : preprocess_data strptime walk
                 = (skipped ++ [Print NoDataFound], [])).
  { unfold preprocess_data. by rewrite Hscan. }
  assert (Hmain : main strptime walk
                  = skipped ++ [Print NoDataFound; Print NoDataToPlot]).
  { unfold main. rewrite Hpre. simpl. by rewrite <-app_assoc. }
  split_and!; [done | by rewrite Hpre | done | |].
  - intros e. rewrite Hmain, elem_of_app. intros [He|He].
    + unfold skipped in He. apply list_elem_of_fmap in He as (f & -> & _).
      by eexists.
    + apply elem_of_cons in He as [->|He]; [by eexists |].
      apply list_elem_of_singleton in He as ->. by eexists.
  - intros HPR HGHI. rewrite Hmain. unfold skipped. by rewrite HPR, HGHI.
Qed.
End Reconciliation.

Lemma empty_input_short_circuit_witness :
  main parse_iso (sample_walk [mkEntry "notes.txt" None;
                               mkEntry "report.csv" (Some [[Some (lit 80 1)]])]
                              [mkEntry "2019-07-01.csv" None])
  = [Print (Skipping "report.csv"); Print (Skipping "2019-07-01.csv");
     Print NoDataFound; Print NoDataToPlot].
Proof.
  apply (empty_input_short_circuit parse_iso).
  intros folder f Hfolder Hf (d & values & Hcsv & Hd & Hv).
  apply elem_of_cons in Hfolder as [->|Hfolder].
  - apply elem_of_cons in Hf as [->|Hf]; [done |].
    apply list_elem_of_singleton in Hf as ->. done.
  - apply list_elem_of_singleton in Hfolder as ->.
    apply list_elem_of_singleton in Hf as ->. done.
Defined.

(** C8, counterexample. The only file is a PR file of 2019-07-01 whose one
    numeric cell is missing, so no file yields a value; yet the frame is
    not empty, it is written out, and a chart is built, saved and shown. *)
Lemma empty_input_counterexample :
  let walk := sample_walk [mkEntry "2019-07-01.csv" (Some [[None]])] [] in
  let df := [mkRow (ymd 2019 7 1) None None] in
  (∀ folder f, folder ∈ ["PR"; "GHI"]%string → f ∈ walk folder →
     ¬ yields_value parse_iso f)
  ∧ (preprocess_data parse_iso walk).2 = df
  ∧ main parse_iso walk
    = [ToCsv df; Print (Saved 1); SaveFig (build_chart df); Show;
       Print Displayed].
Proof.
  intros walk df. split_and!.
  - intros folder f Hfolder Hf (d & values & v & (_ & _ & Hread) & Hv).
    apply elem_of_cons in Hfolder as [->|Hfolder].
    + apply list_elem_of_singleton in Hf as ->.
      simpl in Hread. injection Hread as <-. discriminate.
    + apply list_elem_of_singleton in Hfolder as ->.
      by apply elem_of_nil in Hf.
  - vm_compute. reflexivity.
  - vm_compute. reflexivity.
Qed.

Section Materialization.
Variable strptime : string → option date.

Lemma setdefault_set_key_elem (dd : list (date * gmap string (option Qc)))
    (d : date) (k : string) (v : option Qc) (d' : date) :
  d' ∈ (setdefault_set dd d k v).*1 ↔ d' ∈ dd.*1 ∨ d' = d.
Proof.
  rewrite setdefault_set_keys, elem_of_app. case_decide as Hin.
  - rewrite elem_of_nil. split; [tauto |]. intros [?| ->]; auto.
  - by rewrite list_elem_of_singleton.
Qed.

Lemma process_file_keys (folder : string)
    (st : list (date * gmap string (option Qc)) * list effect)
    (f : dir_entry) (d : date) :
  folder = "PR" ∨ folder = "GHI" →
  d ∈ (process_file strptime folder st f).1.*1
  ↔ d ∈ st.1.*1 ∨ ∃ values, accepted strptime f d values.
Proof.
  intros Hfolder.
  destruct (valid_file_dec strptime f) as [(d0 & vals & Hacc)|Hinv].
  - rewrite (process_file_accepted _ _ _ _ d0 vals) by done. simpl.
    rewrite setdefault_set_key_elem. split; intros [?|H]; auto.
    + subst. right. by exists vals.
    + right. destruct H as (vals' & _ & Hd & _).
      destruct Hacc as (_ & Hd0 & _). congruence.
  - rewrite process_file_rejected by done. simpl. split; [auto |].
    intros [?|(vals & Hacc)]; [done |]. destruct Hinv. by exists d, vals.
Qed.

Lemma foldl_process_keys (folder : string) (l : list dir_entry)
    (st : list (date * gmap string (option Qc)) * list effect) (d : date) :
  folder = "PR" ∨ folder = "GHI" →
  d ∈ (foldl (process_file strptime folder) st l).1.*1
  ↔ d ∈ st.1.*1 ∨ ∃ f values, f ∈ l ∧ accepted strptime f d values.
Proof.
  intros Hfolder. revert st. induction l as [|f l IH]; intros st; simpl.
  - split; [auto |]. intros [?|(f & ? & Hf & _)]; [done |].
    by apply elem_of_nil in Hf.
  - rewrite IH, process_file_keys by done. split.
    + intros [[?|(vals & ?)]|(f' & vals & ? & ?)]; [by left | right ..].
      * exists f, vals. split; [apply list_elem_of_here | done].
      * exists f', vals. split; [by apply list_elem_of_further | done].
    + intros [?|(f' & vals & [->|?]%elem_of_cons & ?)]; [by do 2 left | |].
      * left. right. by exists vals.
      * right. by exists f', vals.
Qed.

Lemma scan_keys (walk : string → list dir_entry) (d : date) :
  d ∈ (scan strptime walk).1.*1
  ↔ ∃ f values, f ∈ walk "PR" ++ walk "GHI" ∧ accepted strptime f d values.
Proof.
  unfold scan. simpl. rewrite !foldl_process_keys by auto. simpl.
  rewrite elem_of_nil. split.
  - intros [[[]|(f & vals & ? & ?)]|(f & vals & ? & ?)];
      exists f, vals; rewrite elem_of_app; auto.
  - intros (f & vals & [?|?]%elem_of_app & ?); [left; right | right];
      by exists f, vals.
Qed.

Lemma process_file_provenance (P : string → dir_entry → Prop)
    (folder : string)
    (st : list (date * gmap string (option Qc)) * list effect) (f : dir_entry) :
  folder = "PR" ∨ folder = "GHI" → P folder f →
  provenance strptime P st.1 →
  provenance strptime P (process_file strptime folder st f).1.
Proof.
  intros Hfolder HP Hprov.
  destruct (valid_file_dec strptime f) as [(d0 & vals & Hacc)|Hinv].
  - rewrite (process_file_accepted _ _ _ _ d0 vals) by done. simpl.
    intros d m key v Hin Hlook.
    apply setdefault_set_elem in Hin as [Hin|(-> & m0 & -> & Hm0)].
    + by eapply Hprov.
    + destruct (decide (folder = key)) as [<-|Hne].
      * rewrite lookup_insert_eq in Hlook. injection Hlook as <-.
        by exists f, vals.
      * rewrite lookup_insert_ne in Hlook by done.
        destruct Hm0 as [->|Hin]; [by rewrite lookup_empty in Hlook |].
        by eapply Hprov.
  - by rewrite process_file_rejected.
Qed.

Lemma foldl_process_provenance (P : string → dir_entry → Prop)
    (folder : string) (l : list dir_entry)
    (st : list (date * gmap string (option Qc)) * list effect) :
  folder = "PR" ∨ folder = "GHI" → (∀ f, f ∈ l → P folder f) →
  provenance strptime P st.1 →
  provenance strptime P (foldl (process_file strptime folder) st l).1.
Proof.
  intros Hfolder. revert st. induction l as [|f l IH]; intros st HP Hprov.
  - done.
  - simpl. apply IH.
    + intros f' Hf'. by apply HP, list_elem_of_further.
    + apply process_file_provenance; [done | apply HP, list_elem_of_here | done].
Qed.

Lemma scan_provenance (walk : string → list dir_entry) :
  provenance strptime (λ key f, f ∈ walk key) (scan strptime walk).1.
Proof.
  unfold scan. simpl.
  do 2 (apply foldl_process_provenance; [auto | done |]).
  intros d m key v Hin. by apply elem_of_nil in Hin.
Qed.

Lemma elem_of_rows_of (dd : list (date * gmap string (option Qc)))
    (r : DailyRecord) :
  r ∈ rows_of dd
  ↔ ∃ d m, (d, m) ∈ dd ∧ r = mkRow d (m !! "GHI" ≫= id) (m !! "PR" ≫= id).
Proof.
  unfold rows_of. rewrite list_elem_of_fmap. split.
  - intros ([d m] & -> & Hin). by exists d, m.
  - intros (d & m & Hin & ->). by exists (d, m).
Qed.

Lemma elem_of_sort_values (df : list DailyRecord) (r : DailyRecord) :
  r ∈ sort_values df ↔ r ∈ df.
Proof. unfold sort_values. by rewrite merge_sort_Permutation. Qed.

(** C7, amended. A row is materialized exactly for the dates of the files
    that are taken in (name ending in [.csv] that parses as a date, content
    read without error), whether or not a number was found in them; a date
    without such a file has no row; and a defined PR or GHI of a row is
    always the first numeric value of such a file of that date and
    category, so a file without a valid numeric cell never contributes a
    number. *)
Theorem materialized_rows (walk : string → list dir_entry) :
  let df := (preprocess_data strptime walk).2 in
  (∀ d, d ∈ Date <$> df
        ↔ ∃ f values, f ∈ walk "PR" ++ walk "GHI"
                      ∧ accepted strptime f d values)
  ∧ (∀ r v, r ∈ df → PR r = Some v →
       ∃ f values, f ∈ walk "PR" ∧ accepted strptime f (Date r) values
                   ∧ first_value values = Some v)
  ∧ (∀ r v, r ∈ df → GHI r = Some v →
       ∃ f values, f ∈ walk "GHI" ∧ accepted strptime f (Date r) values
                   ∧ first_value values = Some v).
Proof.
  intros df. unfold df. rewrite preprocess_data_df.
  pose proof (scan_provenance walk) as Hprov.
  split_and!.
  - intros d. rewrite <-scan_keys, <-rows_of_dates.
    unfold sort_values. by rewrite merge_sort_Permutation.
  - intros r v (d & m & Hin & ->)%elem_of_sort_values%elem_of_rows_of HPR.
    simpl in *. destruct (m !! "PR") as [[v'|]|] eqn:Hm; simplify_eq/=.
    destruct (Hprov _ _ _ _ Hin Hm) as (f & vals & ? & ? & ?).
    by exists f, vals.
  - intros r v (d & m & Hin & ->)%elem_of_sort_values%elem_of_rows_of HGHI.
    simpl in *. destruct (m !! "GHI") as [[v'|]|] eqn:Hm; simplify_eq/=.
    destruct (Hprov _ _ _ _ Hin Hm) as (f & vals & ? & ? & ?).
    by exists f, vals.
Qed.
End Materialization.

Example sample_tree_frame :
  (preprocess_data parse_iso sample_tree).2
  = [mkRow (ymd 2019 7 1) None (Some (lit 70 1));
     mkRow (ymd 2019 7 3) (Some (lit 5 1)) (Some (lit 80 1))].
Proof. vm_compute. reflexivity. Qed.

Lemma series_strictly_sorted_witness : ymd 2019 7 1 < ymd 2019 7 3.
Proof.
  destruct (series_strictly_sorted parse_iso sample_tree) as (_ & _ & Hlt & _).
  apply (Hlt 0%nat 1%nat (mkRow (ymd 2019 7 1) None (Some (lit 70 1)))
             (mkRow (ymd 2019 7 3) (Some (lit 5 1)) (Some (lit 80 1))));
    [lia | vm_compute; reflexivity | vm_compute; reflexivity].
Defined.

(** C7, counterexample. A PR file and a GHI file of 2019-07-01 that hold no
    valid numeric cell: the date is materialized as a row with both GHI and
    PR missing. And a PR file without a numeric cell that is met after one
    with the value 80 for the same date leaves the PR of that date
    missing. *)
Lemma all_missing_row_counterexample :
  (preprocess_data parse_iso
     (sample_walk [mkEntry "2019-07-01.csv" (Some [[None]; []])]
                  [mkEntry "2019-07-01.csv" (Some [])])).2
  = [mkRow (ymd 2019 7 1) None None]
  ∧ (preprocess_data parse_iso
       (sample_walk [mkEntry "2019-07-01.csv" (Some [[Some (lit 80 1)]]);
                     mkEntry "2019-07-01.csv" (Some [])] [])).2
    = [mkRow (ymd 2019 7 1) None None].
Proof. split; vm_compute; reflexivity. Qed.

Lemma materialized_rows_witness :
  (∃ f values, f ∈ sample_tree "PR" ++ sample_tree "GHI"
               ∧ accepted parse_iso f (ymd 2019 7 3) values)
  ∧ (∃ f values, f ∈ sample_tree "PR"
                 ∧ accepted parse_iso f (ymd 2019 7 3) values
                 ∧ first_value values = Some (lit 80 1))
  ∧ (∃ f values, f ∈ sample_tree "GHI"
                 ∧ accepted parse_iso f (ymd 2019 7 3) values
                 ∧ first_value values = Some (lit 5 1)).
Proof.
  destruct (materialized_rows parse_iso sample_tree) as (Hdates & HPR & HGHI).
  assert (Hin : mkRow (ymd 2019 7 3) (Some (lit 5 1)) (Some (lit 80 1))
                ∈ (preprocess_data parse_iso sample_tree).2).
  { rewrite sample_tree_frame. apply list_elem_of_further, list_elem_of_here. }
  split_and!.
  - apply Hdates. rewrite sample_tree_frame.
    apply list_elem_of_further, list_elem_of_here.
  - apply (HPR _ _ Hin). reflexivity.
  - apply (HGHI _ _ Hin). reflexivity.
Defined.

Lemma single_record_average_witness :
  avg [mkRow (ymd 2019 7 1) (Some (lit 5 1)) None] 7 = None.
Proof.
  apply (single_record_average (mkRow (ymd 2019 7 1) (Some (lit 5 1)) None)).
  reflexivity.
Defined.

(** ** The sort does not depend on the algorithm *)

Lemma NoDup_fmap_elem_inj {A B} (f : A → B) (l : list A) (x y : A) :
  NoDup (f <$> l) → x ∈ l → y ∈ l → f x = f y → x = y.
Proof.
  intros Hnd [i Hi]%list_elem_of_lookup [j Hj]%list_elem_of_lookup Heq.
  assert (i = j) as ->; [|congruence].
  apply (NoDup_lookup _ i j (f x) Hnd);
    rewrite list_lookup_fmap, ?Hi, ?Hj; simpl; congruence.
Qed.

(** With distinct dates there is one sorted arrangement of the rows, so
    whatever algorithm [sort_values] runs, its result is the one of
    [merge_sort]. *)
Lemma sort_values_unique (df df' : list DailyRecord) :
  NoDup (Date <$> df) → df' ≡ₚ df → Sorted by_Date df' →
  df' = sort_values df.
Proof.
  intros Hnd Hperm Hs. unfold sort_values.
  apply (Sorted_unique_strong by_Date);
    [| done | apply Sorted_merge_sort, _ | by rewrite merge_sort_Permutation].
  intros x1 x2 H1 H2 Hle Hge.
  apply (NoDup_fmap_elem_inj Date df); [done | by rewrite <-Hperm | |].
  - by rewrite merge_sort_Permutation in H2.
  - unfold by_Date in *. lia.
Qed.

(** The second [sort_values] of [plot_pr_graph] leaves the frame of
    [preprocess_data] as it is. *)
Lemma sort_values_preprocessed (strptime : string → option date)
    (walk : string → list dir_entry) :
  sort_values (preprocess_data strptime walk).2
  = (preprocess_data strptime walk).2.
Proof.
  symmetry. rewrite preprocess_data_df.
  set (rows := rows_of (scan strptime walk).1).
  assert (Hnd : NoDup (Date <$> rows))
    by (unfold rows; rewrite rows_of_dates; apply scan_NoDup).
  apply sort_values_unique.
  - by apply sort_values_dates_sorted.
  - done.
  - apply Sorted_merge_sort, _.
Qed.

(** * Further properties of the pipeline *)

(** ** The dict: store and read back *)

Lemma dict_get_setdefault_set (dd : list (date * gmap string (option Qc)))
    (d : date) (k : string) (v : option Qc) (d' : date) :
  dict_get (setdefault_set dd d k v) d'
  = if decide (d' = d)
    then Some (<[k := v]> (default ∅ (dict_get dd d)))
    else dict_get dd d'.
Proof.
  induction dd as [|[d0 m0] dd IH]; cbn [setdefault_set dict_get].
  - destruct (decide (d = d')) as [->|Hne].
    + by rewrite decide_True.
    + by rewrite decide_False by congruence.
  - destruct (decide (d0 = d)) as [->|Hne]; cbn [dict_get].
    + destruct (decide (d = d')) as [->|Hne'].
      * by rewrite decide_True.
      * by rewrite decide_False by congruence.
    + rewrite IH. destruct (decide (d0 = d')) as [->|Hne'].
      * by rewrite decide_False by congruence.
      * done.
Qed.

Lemma dict_get_elem (dd : list (date * gmap string (option Qc)))
    (d : date) (m : gmap string (option Qc)) :
  NoDup dd.*1 → (d, m) ∈ dd → dict_get dd d = Some m.
Proof.
  induction dd as [|[d0 m0] dd IH]; intros Hnd Hin.
  - by apply elem_of_nil in Hin.
  - cbn [dict_get]. csimpl in Hnd. apply NoDup_cons in Hnd as [Hd0 Hnd].
    apply elem_of_cons in Hin as [[= -> ->]|Hin].
    + by rewrite decide_True.
    + rewrite decide_False; [by apply IH |].
      intros ->. apply Hd0. by apply (list_elem_of_fmap_2 fst) in Hin.
Qed.

(** X1. After [data_dict.setdefault(date, {})[key] = value] the entry
    [data_dict[date][key]] is [value]; the other keys of that date and all
    other dates read as before; the dates kept their order and a new date
    stands last. *)
Theorem setdefault_set_read_back (dd : list (date * gmap string (option Qc)))
    (d : date) (k : string) (v : option Qc) :
  (dict_get (setdefault_set dd d k v) d ≫= (.!! k)) = Some v
  ∧ (∀ k', k' ≠ k →
       (dict_get (setdefault_set dd d k v) d ≫= (.!! k'))
       = (dict_get dd d ≫= (.!! k')))
  ∧ (∀ d', d' ≠ d → dict_get (setdefault_set dd d k v) d' = dict_get dd d')
  ∧ (setdefault_set dd d k v).*1
    = dd.*1 ++ (if decide (d ∈ dd.*1) then [] else [d]).
Proof.
  split_and!.
  - rewrite dict_get_setdefault_set, decide_True by done. simpl.
    apply lookup_insert_eq.
  - intros k' Hk. rewrite dict_get_setdefault_set, decide_True by done. simpl.
    rewrite lookup_insert_ne by done.
    destruct (dict_get dd d); simpl; [done | apply lookup_empty].
  - intros d' Hd. by rewrite dict_get_setdefault_set, decide_False.
  - apply setdefault_set_keys.
Qed.

Lemma setdefault_set_read_back_witness :
  dict_get (setdefault_set [(ymd 2019 7 1, {["PR" := Some (lit 80 1)]})]
              (ymd 2019 7 1) "GHI" None) (ymd 2019 7 1) ≫= (.!! "PR")
  = Some (Some (lit 80 1)).
Proof.
  destruct (setdefault_set_read_back
              [(ymd 2019 7 1, {["PR" := Some (lit 80 1)]})]
              (ymd 2019 7 1) "GHI" None) as (_ & Hother & _).
  rewrite (Hother "PR"); [reflexivity | discriminate].
Defined.

(** ** The frame as a function of the files *)

Section Frame.
Variable strptime : string → option date.

Lemma taken_accepted (f : dir_entry) (d : date) (v : option Qc) :
  taken strptime f = Some (d, v)
  ↔ ∃ values, accepted strptime f d values ∧ first_value values = v.
Proof.
  unfold taken, accepted. split.
  - destruct (endswith_csv (file f)); [|done].
    destruct (strptime (replace_csv (file f))) as [d'|]; [|done].
    destruct (df_csv f) as [values|]; [|done].
    intros [= -> <-]. by exists values.
  - intros (values & (-> & -> & ->) & <-). done.
Qed.

Lemma taken_None (f : dir_entry) :
  taken strptime f = None ↔ ¬ valid_file strptime f.
Proof.
  split.
  - intros Hnone (d & values & Hacc).
    assert (taken strptime f = Some (d, first_value values)) as Hsome
      by (apply taken_accepted; eauto).
    congruence.
  - intros Hinv. destruct (taken strptime f) as [[d v]|] eqn:Ht; [|done].
    apply taken_accepted in Ht as (values & Hacc & _).
    destruct Hinv. by exists d, values.
Qed.

Lemma process_file_taken (folder : string)
    (st : list (date * gmap string (option Qc)) * list effect) (f : dir_entry) :
  folder = "PR" ∨ folder = "GHI" →
  process_file strptime folder st f
  = match taken strptime f with
    | Some (d, v) => (setdefault_set st.1 d folder v, st.2)
    | None => (st.1, st.2 ++ if endswith_csv (file f)
                             then [Print (Skipping (file f))] else [])
    end.
Proof.
  intros Hfolder. unfold process_file, taken. destruct st as [dd out]. simpl.
  destruct (endswith_csv (file f)); [|by rewrite app_nil_r].
  destruct (strptime (replace_csv (file f))) as [d|]; [|done].
  destruct (df_csv f) as [values|]; [|done].
  by destruct Hfolder as [-> | ->].
Qed.

Lemma values_for_cons (f : dir_entry) (l : list dir_entry) (d : date) :
  values_for strptime (f :: l) d
  = match taken strptime f with
    | Some (d', v) =>
        if decide (d' = d) then v :: values_for strptime l d
        else values_for strptime l d
    | None => values_for strptime l d
    end.
Proof.
  unfold values_for. csimpl.
  destruct (taken strptime f) as [[d' v]|]; [|done]. by case_decide.
Qed.

Lemma foldl_process_lookup (folder : string) (l : list dir_entry)
    (st : list (date * gmap string (option Qc)) * list effect)
    (d : date) (key : string) :
  folder = "PR" ∨ folder = "GHI" →
  (dict_get (foldl (process_file strptime folder) st l).1 d ≫= (.!! key))
  = if decide (key = folder)
    then match last (values_for strptime l d) with
         | Some v => Some v
         | None => dict_get st.1 d ≫= (.!! key)
         end
    else dict_get st.1 d ≫= (.!! key).
Proof.
  intros Hfolder. revert st. induction l as [|f l IH]; intros st.
  - simpl. by case_decide.
  - cbn [foldl]. rewrite IH, process_file_taken, values_for_cons by done.
    destruct (taken strptime f) as [[d' v]|]; [|reflexivity]. cbn [fst].
    rewrite dict_get_setdefault_set.
    destruct (decide (d' = d)) as [->|Hne].
    + destruct (decide (d = d)) as [_|]; [|done].
      rewrite last_cons. cbn [mbind option_bind].
      destruct (decide (key = folder)) as [->|Hk].
      * rewrite lookup_insert_eq. by destruct (last _).
      * rewrite lookup_insert_ne by done.
        destruct (dict_get st.1 d); simpl; [done | apply lookup_empty].
    + destruct (decide (d = d')) as [|_]; [congruence | done].
Qed.

Lemma scan_lookup (walk : string → list dir_entry) (d : date) :
  (dict_get (scan strptime walk).1 d ≫= (.!! "PR"))
  = last (values_for strptime (walk "PR") d)
  ∧ (dict_get (scan strptime walk).1 d ≫= (.!! "GHI"))
    = last (values_for strptime (walk "GHI") d).
Proof.
  unfold scan. cbn [foldl]. rewrite !foldl_process_lookup by auto. simpl.
  split; by destruct (last _).
Qed.

Lemma values_for_nonempty (l : list dir_entry) (d : date) :
  values_for strptime l d ≠ []
  ↔ ∃ f values, f ∈ l ∧ accepted strptime f d values.
Proof.
  induction l as [|f l IH].
  - split; [done |]. intros (f & ? & Hf & _). by apply elem_of_nil in Hf.
  - rewrite values_for_cons.
    destruct (taken strptime f) as [[d' v]|] eqn:Ht.
    + apply taken_accepted in Ht as (values & Hacc & _).
      destruct (decide (d' = d)) as [->|Hne].
      * split; [|done]. intros _. exists f, values.
        split; [apply list_elem_of_here | done].
      * rewrite IH. split.
        -- intros (f' & vs & ? & ?). exists f', vs.
           split; [by apply list_elem_of_further | done].
        -- intros (f' & vs & [->|?]%elem_of_cons & Hacc'); [|by exists f', vs].
           destruct Hacc as (_ & Hd & _), Hacc' as (_ & Hd' & _). congruence.
    + apply taken_None in Ht. rewrite IH. split.
      * intros (f' & vs & ? & ?). exists f', vs.
        split; [by apply list_elem_of_further | done].
      * intros (f' & vs & [->|?]%elem_of_cons & Hacc'); [|by exists f', vs].
        destruct Ht. by exists d, vs.
Qed.

(** X2. The frame is a function of the files that are taken in: a date has
    a row exactly when a file of [PR] or [GHI] brings a value for it, and
    the PR (GHI) of the row is what the last such PR (GHI) file in the order
    of the walk brings, so a later file of the same date and category
    replaces the earlier one, also by a missing value; a category without
    a file for the date is missing in the row. *)
Theorem frame_content (walk : string → list dir_entry) :
  let df := (preprocess_data strptime walk).2 in
  (∀ d, d ∈ Date <$> df
        ↔ values_for strptime (walk "PR") d ≠ []
          ∨ values_for strptime (walk "GHI") d ≠ [])
  ∧ (∀ r, r ∈ df →
       PR r = last (values_for strptime (walk "PR") (Date r)) ≫= id
       ∧ GHI r = last (values_for strptime (walk "GHI") (Date r)) ≫= id).
Proof.
  intros df. unfold df. rewrite preprocess_data_df. split.
  - intros d. rewrite !values_for_nonempty.
    unfold sort_values. rewrite merge_sort_Permutation, rows_of_dates, scan_keys.
    split.
    + intros (f & vs & [?|?]%elem_of_app & ?); [left | right]; by exists f, vs.
    + intros [(f & vs & ? & ?)|(f & vs & ? & ?)]; exists f, vs;
        rewrite elem_of_app; auto.
  - intros r (d & m & Hin & ->)%elem_of_sort_values%elem_of_rows_of.
    apply dict_get_elem in Hin; [|apply scan_NoDup].
    destruct (scan_lookup walk d) as [HPR HGHI].
    rewrite Hin in HPR, HGHI. simpl in *. by rewrite HPR, HGHI.
Qed.
End Frame.

Lemma frame_content_witness :
  PR (mkRow (ymd 2019 7 3) (Some (lit 5 1)) (Some (lit 80 1)))
  = last (values_for parse_iso (sample_tree "PR") (ymd 2019 7 3)) ≫= id.
Proof.
  destruct (frame_content parse_iso sample_tree) as [_ Hrows].
  apply (Hrows (mkRow (ymd 2019 7 3) (Some (lit 5 1)) (Some (lit 80 1)))).
  rewrite sample_tree_frame. apply list_elem_of_further, list_elem_of_here.
Defined.

(** ** What a run prints and writes *)

Lemma sort_values_nil_iff (df : list DailyRecord) :
  sort_values df = [] ↔ df = [].
Proof.
  unfold sort_values. split; [|by intros ->].
  intros Hnil. apply Permutation_nil_r. rewrite <-Hnil.
  by rewrite merge_sort_Permutation.
Qed.

Lemma length_sort_values (df : list DailyRecord) :
  length (sort_values df) = length df.
Proof. unfold sort_values. by rewrite merge_sort_Permutation. Qed.

Section Run.
Variable strptime : string → option date.

Lemma foldl_process_out (folder : string) (l : list dir_entry)
    (st : list (date * gmap string (option Qc)) * list effect) :
  folder = "PR" ∨ folder = "GHI" →
  (foldl (process_file strptime folder) st l).2
  = st.2 ++ (Print ∘ Skipping ∘ file <$> skipped_files strptime l).
Proof.
  intros Hfolder. revert st. induction l as [|f l IH]; intros st.
  - simpl. by rewrite app_nil_r.
  - cbn [foldl]. rewrite IH, process_file_taken by done.
    unfold skipped_files. rewrite filter_cons.
    destruct (taken strptime f) as [[d v]|] eqn:Ht.
    + rewrite decide_False by (by intros [_ ?]). done.
    + cbn [snd]. destruct (endswith_csv (file f)) eqn:Hcsv.
      * rewrite decide_True by done. csimpl. by rewrite <-app_assoc.
      * rewrite decide_False by (by intros [[] _]). by rewrite app_nil_r.
Qed.

Lemma scan_out (walk : string → list dir_entry) :
  (scan strptime walk).2
  = Print ∘ Skipping ∘ file
      <$> skipped_files strptime (walk "PR" ++ walk "GHI").
Proof.
  unfold scan. cbn [foldl]. rewrite !foldl_process_out by auto. simpl.
  unfold skipped_files. by rewrite filter_app, fmap_app.
Qed.

Lemma preprocess_data_out (walk : string → list dir_entry) :
  (preprocess_data strptime walk).1
  = (scan strptime walk).2
    ++ match (preprocess_data strptime walk).2 with
       | [] => [Print NoDataFound]
       | df => [ToCsv df; Print (Saved (length df))]
       end.
Proof.
  unfold preprocess_data. destruct (scan strptime walk) as [dd out]. simpl.
  destruct (rows_of dd) as [|r rows] eqn:Hrows; [reflexivity |]. simpl.
  destruct (sort_values (r :: rows)) eqn:Hs; [|reflexivity].
  pose proof (proj1 (sort_values_nil_iff _) Hs). discriminate.
Qed.

(** X3. [preprocess_data] reports as skipped exactly the files whose name
    ends in [.csv] and whose name does not parse as a date or whose content
    cannot be read, each once, in the order of the walk with [PR] before
    [GHI]; files that are taken in and files without the extension are not
    reported. After the reports comes either the notice that no data was
    found, or the export of the returned frame and its row count. *)
Theorem skipped_files_report (walk : string → list dir_entry) :
  let df := (preprocess_data strptime walk).2 in
  (preprocess_data strptime walk).1
  = (Print ∘ Skipping ∘ file
       <$> skipped_files strptime (walk "PR" ++ walk "GHI"))
    ++ match df with
       | [] => [Print NoDataFound]
       | _ => [ToCsv df; Print (Saved (length df))]
       end
  ∧ (∀ f, f ∈ skipped_files strptime (walk "PR" ++ walk "GHI")
          ↔ f ∈ walk "PR" ++ walk "GHI"
            ∧ endswith_csv (file f) = true ∧ ¬ valid_file strptime f).
Proof.
  intros df. split.
  - rewrite preprocess_data_out, scan_out. unfold df.
    by destruct (preprocess_data strptime walk).2.
  - intros f. unfold skipped_files.
    rewrite list_elem_of_filter, taken_None, Is_true_true. tauto.
Qed.

Lemma foldl_process_dict_filter (folder : string) (l : list dir_entry)
    (st st' : list (date * gmap string (option Qc)) * list effect) :
  folder = "PR" ∨ folder = "GHI" → st.1 = st'.1 →
  (foldl (process_file strptime folder) st l).1
  = (foldl (process_file strptime folder) st'
       (filter (λ f, is_Some (taken strptime f)) l)).1.
Proof.
  intros Hfolder. revert st st'. induction l as [|f l IH]; intros st st' Hst.
  - done.
  - rewrite filter_cons. cbn [foldl].
    destruct (taken strptime f) as [[d v]|] eqn:Ht.
    + rewrite decide_True by done. cbn [foldl]. apply IH.
      rewrite !process_file_taken, Ht by done. simpl. by rewrite Hst.
    + rewrite decide_False by (by intros [? ?]). apply IH.
      by rewrite process_file_taken, Ht.
Qed.

(** X4. Files that are skipped and files without the extension have no
    part in the frame: removing them from the walk gives the same frame. *)
Theorem rejected_files_do_not_count (walk : string → list dir_entry) :
  (preprocess_data strptime walk).2
  = (preprocess_data strptime
       (λ folder, filter (λ f, is_Some (taken strptime f)) (walk folder))).2.
Proof.
  rewrite !preprocess_data_df. do 2 f_equal.
  unfold scan. cbn [foldl].
  apply foldl_process_dict_filter; [auto |].
  by apply foldl_process_dict_filter; [auto |].
Qed.

Lemma main_unfold (walk : string → list dir_entry) :
  main strptime walk
  = (preprocess_data strptime walk).1
    ++ plot_pr_graph (preprocess_data strptime walk).2.
Proof. unfold main. by destruct (preprocess_data strptime walk). Qed.

(** X5. A run that finds at least one valid file under [PR] or [GHI]
    returns a non-empty frame and, after the skip reports, does these five
    things in this order: writes the frame to the CSV, prints its row
    count, saves the chart built from that same frame (sorting it again
    changes nothing), shows it, and prints the closing line. *)
Theorem run_with_data (walk : string → list dir_entry)
    (folder : string) (f : dir_entry) :
  folder ∈ ["PR"; "GHI"]%string → f ∈ walk folder → valid_file strptime f →
  let df := (preprocess_data strptime walk).2 in
  df ≠ []
  ∧ main strptime walk
    = (Print ∘ Skipping ∘ file
         <$> skipped_files strptime (walk "PR" ++ walk "GHI"))
      ++ [ToCsv df; Print (Saved (length df));
          SaveFig (build_chart df); Show; Print Displayed].
Proof.
  intros Hfolder Hf (d & values & Hacc) df.
  assert (Hd : d ∈ Date <$> df).
  { unfold df. rewrite preprocess_data_df.
    unfold sort_values. rewrite merge_sort_Permutation, rows_of_dates, scan_keys.
    exists f, values. split; [|done]. rewrite elem_of_app.
    apply elem_of_cons in Hfolder as [->|Hfolder]; [by left |].
    apply list_elem_of_singleton in Hfolder as ->. by right. }
  assert (Hne : df ≠ []) by (intros Hnil; rewrite Hnil in Hd; by apply elem_of_nil in Hd).
  split; [done |].
  rewrite main_unfold, preprocess_data_out, scan_out. fold df.
  rewrite <-app_assoc. f_equal.
  assert (Hsort : sort_values df = df) by apply sort_values_preprocessed.
  unfold plot_pr_graph. rewrite Hsort.
  by destruct df.
Qed.
End Run.

Lemma run_with_data_witness :
  main parse_iso sample_tree
  = [ToCsv (preprocess_data parse_iso sample_tree).2; Print (Saved 2);
     SaveFig (build_chart (preprocess_data parse_iso sample_tree).2);
     Show; Print Displayed].
Proof.
  destruct (run_with_data parse_iso sample_tree "GHI"
              (mkEntry "2019-07-03.csv" (Some [[Some (lit 5 1)]])))
    as [_ Hmain].
  - set_solver.
  - apply list_elem_of_here.
  - by exists (ymd 2019 7 3), [[Some (lit 5 1)]].
  - rewrite Hmain. reflexivity.
Defined.

(** ** The budget curve, step by step *)

Lemma Qcpower_pos_strict (q : Qc) (n : nat) : (0 < q)%Qc → (0 < q ^ n)%Qc.
Proof.
  intros Hq. induction n as [|n IH]; [by vm_compute |].
  simpl. by apply Qcmult_pos_pos.
Qed.

Lemma budget_years_first (d : date) : d < start + 365 → budget_years d = 0.
Proof.
  intros Hd. unfold budget_years. apply Z.max_l.
  assert ((d - start) / 365 < 1) by (apply Z.div_lt_upper_bound; lia). lia.
Qed.

Lemma budget_years_next (d : date) :
  start ≤ d → budget_years (d + 365) = budget_years d + 1.
Proof.
  intros Hd. unfold budget_years.
  replace (d + 365 - start) with (d - start + 1 * 365) by lia.
  rewrite Z.div_add by lia.
  assert (0 ≤ (d - start) / 365) by (apply Z.div_pos; lia). lia.
Qed.

Lemma budget_years_period (d : date) :
  start ≤ d →
  start + 365 * budget_years d ≤ d ∧ d < start + 365 * (budget_years d + 1).
Proof.
  intros Hd. unfold budget_years.
  assert (0 ≤ (d - start) / 365) by (apply Z.div_pos; lia).
  rewrite Z.max_r by done.
  pose proof (Z.div_mod (d - start) 365) as Hdm.
  pose proof (Z.mod_pos_bound (d - start) 365). lia.
Qed.

(** X6. The budget is a staircase of 365-day steps, not of calendar years:
    it is 73.9 for every date before 2019-07-01 + 365 days (also for dates
    before the start); from the start on the number of decay years is the
    number of whole 365-day periods since the start, so it grows by one
    with every further 365 days; all dates with the same number of years
    have the same budget, which is 73.9 x (1 - 0.008) in the second period;
    and the budget always stays positive and at most 73.9. *)
Theorem budget_staircase (d : date) :
  (d < start + 365 → budget_years d = 0 ∧ get_budget d = base)
  ∧ (start ≤ d → budget_years (d + 365) = budget_years d + 1)
  ∧ (start ≤ d →
       start + 365 * budget_years d ≤ d
       ∧ d < start + 365 * (budget_years d + 1))
  ∧ (∀ d', budget_years d' = budget_years d → get_budget d' = get_budget d)
  ∧ (budget_years d = 1 → get_budget d = (base * decay)%Qc)
  ∧ (0 < get_budget d)%Qc
  ∧ (get_budget d ≤ base)%Qc.
Proof.
  split_and!.
  - intros Hd. split; [by apply budget_years_first |].
    unfold get_budget. rewrite budget_years_first by done. simpl. ring.
  - apply budget_years_next.
  - apply budget_years_period.
  - intros d' Heq. unfold get_budget. by rewrite Heq.
  - intros H1. unfold get_budget. rewrite H1. simpl. ring.
  - unfold get_budget. apply Qcmult_pos_pos; [by vm_compute |].
    apply Qcpower_pos_strict. by vm_compute.
  - unfold get_budget. rewrite <-(Qcmult_1_r base) at 2.
    apply Qcmult_le_mono_nonneg_l; [apply base_nonneg |].
    apply (Qcpower_antitone decay 0); [apply decay_nonneg | apply decay_le_1 | lia].
Qed.

Lemma budget_staircase_witness :
  get_budget (ymd 2020 6 29) = base
  ∧ budget_years (ymd 2020 6 30 + 365) = budget_years (ymd 2020 6 30) + 1
  ∧ get_budget (ymd 2020 6 30) = (base * decay)%Qc.
Proof.
  split_and!.
  - apply (budget_staircase (ymd 2020 6 29)). reflexivity.
  - destruct (budget_staircase (ymd 2020 6 30)) as (_ & Hstep & _).
    apply Hstep. discriminate.
  - destruct (budget_staircase (ymd 2020 6 30)) as (_ & _ & _ & _ & Hsecond & _).
    apply Hsecond. reflexivity.
Defined.

Lemma StronglySorted_lookup_lt {A} (R : relation A) (l : list A)
    (i j : nat) (x y : A) :
  StronglySorted R l → (i < j)%nat → l !! i = Some x → l !! j = Some y →
  R x y.
Proof.
  intros Hs. revert i j. induction Hs as [|z l Hs IH Hall]; intros i j Hij Hi Hj.
  - done.
  - destruct j as [|j]; [lia |]. destruct i as [|i].
    + injection Hi as <-. rewrite Forall_forall in Hall.
      apply Hall. by eapply list_elem_of_lookup_2.
    + apply (IH i j); [lia | done | done].
Qed.

(** X7. In the chart the budget line never rises: of two points of the
    plotted frame the later one has a budget that is at most the budget of
    the earlier one. *)
Theorem budget_line_never_rises (df : list DailyRecord) (i j : nat)
    (p q : DerivedPoint) :
  (i ≤ j)%nat →
  points (build_chart (sort_values df)) !! i = Some p →
  points (build_chart (sort_values df)) !! j = Some q →
  (Budget_PR q ≤ Budget_PR p)%Qc.
Proof.
  intros Hij Hp Hq. cbn [points build_chart] in Hp, Hq.
  rewrite derive_lookup in Hp, Hq.
  destruct (sort_values df !! i) as [r1|] eqn:H1; [|done].
  destruct (sort_values df !! j) as [r2|] eqn:H2; [|done].
  injection Hp as <-. injection Hq as <-. simpl.
  apply get_budget_antitone.
  destruct (decide (i = j)) as [->|Hne].
  - rewrite H1 in H2. injection H2 as ->. lia.
  - apply (StronglySorted_lookup_lt by_Date (sort_values df) i j);
      [| lia | done | done].
    apply StronglySorted_merge_sort; apply _.
Qed.

Lemma budget_line_never_rises_witness :
  (get_budget (ymd 2021 7 3) ≤ get_budget (ymd 2019 7 1))%Qc.
Proof.
  apply (budget_line_never_rises
           [mkRow (ymd 2021 7 3) None None; mkRow (ymd 2019 7 1) None None]
           0 1
           (mkPoint (mkRow (ymd 2019 7 1) None None) None
                    (get_budget (ymd 2019 7 1)) gray)
           (mkPoint (mkRow (ymd 2021 7 3) None None) None
                    (get_budget (ymd 2021 7 3)) gray));
    [lia | reflexivity | reflexivity].
Defined.

(** ** Trailing averages: when they are defined *)

Lemma filter_all {A} (P : A → Prop) `{∀ x, Decision (P x)} (l : list A) :
  (∀ x, x ∈ l → P x) → filter P l = l.
Proof.
  induction l as [|x l IH]; intros Hall; [done |].
  rewrite filter_cons_True by apply Hall, list_elem_of_here.
  f_equal. apply IH. intros y Hy. by apply Hall, list_elem_of_further.
Qed.

(** X9. With a positive window the trailing average is defined as soon as
    a row of the latest date has a PR; and when the window reaches back
    before the first date, the trailing average is the lifetime average. *)
Theorem trailing_average_reach (df : list DailyRecord) (days : Z) :
  (0 < days →
   (∃ r, r ∈ df ∧ Date r = Date_max df ∧ is_Some (PR r)) →
   is_Some (avg df days))
  ∧ ((∀ r, r ∈ df → Date_max df - days < Date r) →
     avg df days = mean (PR <$> df)).
Proof.
  split.
  - intros Hpos (r & Hin & Hmax & [x Hx]). rewrite avg_candidates.
    destruct (omap PR _) as [|y ys] eqn:Hobs; [|done].
    assert (x ∈ omap PR (filter (λ r', Date_max df - days < Date r') df)) as Hxin.
    { apply list_elem_of_omap. exists r. split; [|done].
      apply list_elem_of_filter. split; [lia | done]. }
    rewrite Hobs in Hxin. by apply elem_of_nil in Hxin.
  - intros Hall. unfold avg. by rewrite filter_all.
Qed.

Lemma trailing_average_reach_witness :
  is_Some (avg (sample_frame [None; Some (lit 80 1)]) 7)
  ∧ avg (sample_frame [None; Some (lit 80 1)]) 7
    = mean (PR <$> sample_frame [None; Some (lit 80 1)]).
Proof.
  destruct (trailing_average_reach (sample_frame [None; Some (lit 80 1)]) 7)
    as [Hdef Hwhole].
  split.
  - apply Hdef; [lia |].
    exists (mkRow (start + 1) None (Some (lit 80 1))).
    split_and!; [apply list_elem_of_further, list_elem_of_here | reflexivity | by eexists].
  - apply Hwhole. intros r Hin. vm_compute in Hin.
    repeat (apply elem_of_cons in Hin as [->|Hin]; [by vm_compute |]).
    by apply elem_of_nil in Hin.
Defined.

(** ** A missing PR in the moving average *)

(** X10. One missing PR blanks the moving average at its own position and
    at the 29 positions after it. *)
Theorem missing_PR_blanks_window (df : list DailyRecord) (k i : nat)
    (r : DailyRecord) (p : DerivedPoint) :
  df !! k = Some r → PR r = None → (k ≤ i)%nat → (i < k + 30)%nat →
  derive df !! i = Some p → PR_MA_30 p = None.
Proof.
  intros Hk HPR Hki Hik Hp. rewrite derive_lookup in Hp.
  destruct (df !! i) as [ri|] eqn:Hi; [|done]. injection Hp as <-. simpl.
  destruct (decide (i < 29)%nat) as [Hearly|Hlate].
  - apply rolling_mean_at_early. lia.
  - apply rolling_mean_at_gap.
    + rewrite length_fmap. by eapply lookup_lt_Some.
    + apply list_elem_of_lookup. exists (k - (i - 29))%nat.
      rewrite lookup_drop, lookup_take_lt by lia.
      replace (i - 29 + (k - (i - 29)))%nat with k by lia.
      by rewrite list_lookup_fmap, Hk, <-HPR.
Qed.

Lemma missing_PR_blanks_window_witness :
  PR_MA_30 (mkPoint (mkRow (start + 40) None (Some (lit 50 1)))
              (rolling_mean_at 30
                 (PR <$> sample_frame (replicate 20 (Some (lit 50 1)) ++ [None]
                                        ++ replicate 30 (Some (lit 50 1)))) 40)
              (get_budget (start + 40)) gray) = None.
Proof.
  apply (missing_PR_blanks_window
           (sample_frame (replicate 20 (Some (lit 50 1)) ++ [None]
                          ++ replicate 30 (Some (lit 50 1))))
           20 40 (mkRow (start + 20) None None));
    [reflexivity | reflexivity | lia | lia | reflexivity].
Defined.

(** ** The chart of a frame *)











(** X12. The chart does not depend on the order in which the rows of the
    frame come, as long as no two rows share a date. *)
Theorem plot_order_independent (df df' : list DailyRecord) :
  NoDup (Date <$> df) → df' ≡ₚ df → plot_pr_graph df' = plot_pr_graph df.
Proof.
  intros Hnd Hperm.
  assert (Hsort : sort_values df' = sort_values df).
  { apply sort_values_unique; [done | |].
    - unfold sort_values. by rewrite merge_sort_Permutation.
    - apply Sorted_merge_sort, _. }
  unfold plot_pr_graph. rewrite Hsort.
  apply Permutation_length in Hperm.
  by destruct df, df'.
Qed.

Lemma plot_order_independent_witness :
  plot_pr_graph [mkRow (ymd 2019 7 3) None (Some (lit 80 1));
                 mkRow (ymd 2019 7 1) None None]
  = plot_pr_graph [mkRow (ymd 2019 7 1) None None;
                   mkRow (ymd 2019 7 3) None (Some (lit 80 1))].
Proof.
  apply plot_order_independent.
  - apply NoDup_cons. split; [|apply NoDup_singleton].
    intros Hin%list_elem_of_singleton. discriminate.
  - apply perm_swap.
Defined.

(** ** The value of a file *)

Lemma head_omap_id_Some (cells : list (option Qc)) (v : Qc) :
  head (omap id cells) = Some v
  ↔ ∃ k rest, cells = replicate k None ++ Some v :: rest.
Proof.
  induction cells as [|[x|] cells IH]; csimpl.
  - split; [done |]. intros (k & rest & H). by destruct k.
  - split.
    + intros [= ->]. by exists 0%nat, cells.
    + intros (k & rest & H). destruct k; simpl in H; by simplify_eq.
  - rewrite IH. split.
    + intros (k & rest & ->). by exists (S k), rest.
    + intros (k & rest & H). destruct k; simpl in H; simplify_eq.
      by exists k, rest.
Qed.

Lemma head_omap_id_None (cells : list (option Qc)) :
  head (omap id cells) = None ↔ Forall (λ c, c = None) cells.
Proof.
  induction cells as [|[x|] cells IH]; csimpl.
  - split; [constructor | done].
  - split; [done |]. by intros [[=] _]%Forall_cons.
  - rewrite IH, Forall_cons. tauto.
Qed.

Lemma Forall_concat_iff {A} (P : A → Prop) (ls : list (list A)) :
  Forall P (concat ls) ↔ Forall (Forall P) ls.
Proof.
  induction ls as [|l ls IH]; simpl.
  - split; constructor.
  - rewrite Forall_app, Forall_cons, IH. tauto.
Qed.

(** X13. The value of a file is the first cell that holds a number when the
    numeric cells are read row by row: cells before it are all missing,
    an earlier row goes before a later one, and the file has no value
    exactly when every cell is missing (or there is none). *)
Theorem first_value_row_major (values : list (list (option Qc))) :
  (first_value values = None ↔ Forall (Forall (λ c, c = None)) values)
  ∧ (∀ v, first_value values = Some v
          ↔ ∃ k rest, concat values = replicate k None ++ Some v :: rest)
  ∧ (∀ row, first_value (row :: values)
            = match first_value [row] with
              | Some v => Some v
              | None => first_value values
              end).
Proof.
  unfold first_value. split_and!.
  - by rewrite head_omap_id_None, Forall_concat_iff.
  - intros v. apply head_omap_id_Some.
  - intros row. simpl. rewrite app_nil_r, omap_app.
    by destruct (omap id row).
Qed.

(** ** File names *)

Lemma prefix_csv_inv (s : string) :
  String.prefix ".csv" s = true →
  ∃ rest, s = String "." (String "c" (String "s" (String "v" rest))).
Proof.
  destruct s as [|c1 s]; [done |]. cbn [String.prefix].
  destruct (ascii_dec "." c1) as [<-|]; [|done].
  destruct s as [|c2 s]; [done |]. cbn [String.prefix].
  destruct (ascii_dec "c" c2) as [<-|]; [|done].
  destruct s as [|c3 s]; [done |]. cbn [String.prefix].
  destruct (ascii_dec "s" c3) as [<-|]; [|done].
  destruct s as [|c4 s]; [done |]. cbn [String.prefix].
  destruct (ascii_dec "v" c4) as [<-|]; [|done].
  intros _. by exists s.
Qed.

Ltac ascii_cases c :=
  destruct c as [[] [] [] [] [] [] [] []]; try reflexivity; try congruence.

Lemma replace_csv_cons (c : ascii) (r : string) :
  String.prefix ".csv" (String c r) = false →
  replace_csv (String c r) = String c (replace_csv r).
Proof.
  cbn [String.prefix].
  destruct (ascii_dec "." c) as [<-|Hc]; [|intros _; by ascii_cases c].
  destruct r as [|c2 r]; [reflexivity |]. cbn [String.prefix].
  destruct (ascii_dec "c" c2) as [<-|Hc2]; [|intros _; by ascii_cases c2].
  destruct r as [|c3 r]; [reflexivity |]. cbn [String.prefix].
  destruct (ascii_dec "s" c3) as [<-|Hc3]; [|intros _; by ascii_cases c3].
  destruct r as [|c4 r]; [reflexivity |]. cbn [String.prefix].
  destruct (ascii_dec "v" c4) as [<-|Hc4]; [|intros _; by ascii_cases c4].
  cbn [String.prefix]. by destruct r.
Qed.

Lemma append_cons (c : ascii) (r t : string) :
  String c r +:+ t = String c (r +:+ t).
Proof. reflexivity. Qed.

Lemma prefix_csv_app (c : ascii) (r b : string) :
  String.prefix ".csv" (String c r) = false →
  String.prefix ".csv" (String c r +:+ ".csv" +:+ b) = false.
Proof.
  rewrite append_cons. cbn [String.prefix].
  destruct (ascii_dec "." c) as [<-|Hc]; [|done].
  destruct r as [|c2 r]; [reflexivity |].
  rewrite append_cons. cbn [String.prefix].
  destruct (ascii_dec "c" c2) as [<-|Hc2]; [|done].
  destruct r as [|c3 r]; [reflexivity |].
  rewrite append_cons. cbn [String.prefix].
  destruct (ascii_dec "s" c3) as [<-|Hc3]; [|done].
  destruct r as [|c4 r]; [reflexivity |].
  rewrite append_cons. cbn [String.prefix].
  destruct (ascii_dec "v" c4) as [<-|Hc4]; [|done].
  by destruct r.
Qed.

Lemma replace_csv_app_aux (n : nat) (a b : string) :
  (String.length a ≤ n)%nat →
  replace_csv (a +:+ ".csv" +:+ b) = replace_csv a +:+ replace_csv b.
Proof.
  revert a. induction n as [|n IH]; intros a Hlen.
  - destruct a; [reflexivity | simpl in Hlen; exfalso; lia].
  - destruct a as [|c r]; [reflexivity |].
    destruct (String.prefix ".csv" (String c r)) eqn:Hp.
    + apply prefix_csv_inv in Hp as [rest Hrest]. rewrite Hrest.
      change (replace_csv (rest +:+ ".csv" +:+ b)
              = replace_csv rest +:+ replace_csv b).
      apply IH. rewrite Hrest in Hlen. simpl in Hlen. lia.
    + pose proof (prefix_csv_app c r b Hp) as Hp'.
      rewrite append_cons in Hp' |- *.
      rewrite (replace_csv_cons _ _ Hp), (replace_csv_cons _ _ Hp').
      rewrite (append_cons c (replace_csv r)). f_equal.
      apply IH. simpl in Hlen. lia.
Qed.

Lemma append_nil_r (s : string) : s +:+ "" = s.
Proof. induction s as [|c s IH]; [done |]. by rewrite append_cons, IH. Qed.

Lemma length_append (s t : string) :
  String.length (s +:+ t) = (String.length s + String.length t)%nat.
Proof. induction s as [|c s IH]; [done |]. rewrite append_cons. simpl. by rewrite IH. Qed.

Lemma substring_all (s : string) : String.substring 0 (String.length s) s = s.
Proof. induction s as [|c s IH]; [done |]. simpl. by rewrite IH. Qed.

Lemma substring_append_r (s t : string) (m : nat) :
  String.substring (String.length s) m (s +:+ t) = String.substring 0 m t.
Proof. induction s as [|c s IH]; [done |]. rewrite append_cons. simpl. exact IH. Qed.

Lemma substring_split (s : string) (k : nat) :
  (k ≤ String.length s)%nat →
  s = String.substring 0 k s +:+ String.substring k (String.length s - k) s.
Proof.
  revert k. induction s as [|c s IH]; intros k Hk.
  - by destruct k.
  - destruct k as [|k].
    + change (String.substring 0 0 (String c s)) with "".
      by rewrite Nat.sub_0_r, substring_all.
    + simpl in Hk. simpl. rewrite append_cons. f_equal. apply IH. lia.
Qed.

Lemma replace_csv_no_dot (stem : string) :
  "."%char ∉ list_ascii_of_string stem → replace_csv stem = stem.
Proof.
  induction stem as [|c r IH]; [done |]. simpl list_ascii_of_string.
  intros Hdot. apply not_elem_of_cons in Hdot as [Hc Hr].
  rewrite replace_csv_cons, IH; [done | done |].
  cbn [String.prefix]. by destruct (ascii_dec "." c).
Qed.

(** X14. A file name is a candidate exactly when it is some stem followed
    by [.csv]. The date is parsed from the name with every [.csv] taken out,
    wherever it stands, so [stem.csv] is parsed from the stem with its own
    [.csv] taken out, and from the stem itself when the stem has no dot. *)
Theorem file_name_stem (name a b stem : string) :
  (endswith_csv name = true ↔ ∃ s, name = s +:+ ".csv")
  ∧ replace_csv (a +:+ ".csv" +:+ b) = replace_csv a +:+ replace_csv b
  ∧ replace_csv (stem +:+ ".csv") = replace_csv stem
  ∧ ("."%char ∉ list_ascii_of_string stem →
       replace_csv (stem +:+ ".csv") = stem).
Proof.
  assert (Hstrip : ∀ s, replace_csv (s +:+ ".csv") = replace_csv s).
  { intros s. rewrite <-(append_nil_r ".csv").
    rewrite (replace_csv_app_aux (String.length s)) by done.
    apply append_nil_r. }
  split_and!.
  - unfold endswith_csv. split.
    + intros [Hlen Heq%String.eqb_eq]%andb_true_iff.
      apply Nat.leb_le in Hlen.
      exists (String.substring 0 (String.length name - 4) name).
      pose proof (substring_split name (String.length name - 4)) as Hsplit.
      replace (String.length name - (String.length name - 4))%nat
        with 4%nat in Hsplit by lia.
      rewrite Heq in Hsplit. apply Hsplit. lia.
    + intros [s ->]. rewrite length_append. apply andb_true_iff. split.
      * apply Nat.leb_le. simpl. lia.
      * apply String.eqb_eq.
        replace (String.length s + String.length ".csv" - 4)%nat
          with (String.length s) by (simpl; lia).
        by rewrite substring_append_r.
  - by apply (replace_csv_app_aux (String.length a)).
  - apply Hstrip.
  - intros Hdot. by rewrite Hstrip, replace_csv_no_dot.
Qed.

Lemma file_name_stem_witness :
  replace_csv ("2019-07-01" +:+ ".csv") = "2019-07-01".
Proof.
  apply (file_name_stem "" "" "" "2019-07-01").
  simpl. intros Hin. repeat (apply elem_of_cons in Hin as [Hin|Hin]; [discriminate |]).
  by apply elem_of_nil in Hin.
Defined.
